(** * Accour: the CSV-backed activity store and its aggregate queries

    A shallow embedding of [src/main.py]: the static methods of
    [CSVHandler] and the store-facing handlers of [AccumulativeHourApp].

    Modelling choices.
    - A CSV file is the list of rows that [csv.reader] yields from it and
      that [csv.writer.writerow] puts into it; the quoting and line
      endings of the [csv] module are below this level.  The file system is
      a finite map from path to file content; a path without an entry is a
      file that does not exist.  Permissions and disk failures are not
      modelled.
    - A row read through [csv.DictReader] is a Python [dict]: a finite map
      from column name to a value that is a string or [None] (the reader's
      [restval]), plus the surplus cells the reader stores under its
      [restkey].
    - Exceptions are values of [exn]; a computation that may raise returns
      a [result].  Message boxes are returned as a list of [dialog]s.
    - [datetime.now().strftime("%Y-%m-%d")] and the values read from
      widgets and input dialogs are arguments of the handlers.
    - Text is a [string] that holds the UTF-8 encoding of a Python [str].
    - The content of a file is held as a read yields it.  The code writes
      with [newline=""] and reads without it, so that the universal
      newlines of the reading turn a CR or CRLF inside a cell into LF:
      what [writerow] stores of a cell is the cell after that translation.
    - The directory [USER_DATA_DIR] is taken to exist, except in
      [initialize_csv_on] and [login_on], which have the directories.
      A file or directory is known by its path as it is written: the
      components [.] and [..], repeated separators and links are not
      resolved.
    - Limits of the interpreter and of the file system are left out: the
      number of digits that [int] accepts, the length of a file name. *)

From stdpp Require Import gmap strings list fin_maps pretty.
From Stdlib Require Import ZArith Ascii.

Local Open Scope string_scope.
Local Open Scope Z_scope.

(** ** Python primitives *)

Module Py.

Inductive exn : Type :=
| KeyError (key : string)
| IndexError
| ValueError
| TypeError
| FileNotFoundError
| FileExistsError
| IsADirectoryError
| NotADirectoryError.

Inductive result (A : Type) : Type :=
| Ok (a : A)
| Raise (e : exn).
Arguments Ok {A} a.
Arguments Raise {A} e.

Global Instance result_bind : MBind result := λ A B k m,
  match m with
  | Ok a => k a
  | Raise e => Raise e
  end.

(** A Python value that is either [None] or a [str]. *)
Abbreviation value := (option string).

(** Whether a byte continues a UTF-8 sequence. *)
Definition continuation (c : ascii) : bool :=
  (128 <=? N_of_ascii c)%N && (N_of_ascii c <? 192)%N.

(** The characters of a text, each as the bytes that encode it: a byte
    that is no continuation byte, with the continuation bytes after it. *)
Fixpoint chars (s : string) : list string :=
  match s with
  | EmptyString => []
  | String c s' =>
      match chars s' with
      | String c' tok :: rest =>
          if continuation c' then String c (String c' tok) :: rest
          else String c "" :: String c' tok :: rest
      | rest => String c "" :: rest
      end
  end.

(** [ord] of a character; what is no encoding of a code point counts as
    U+FFFD, which is neither white space nor a digit. *)
Definition ord (char : string) : N :=
  let low (c : ascii) : N := (N_of_ascii c - 128)%N in
  match char with
  | String a "" => if (N_of_ascii a <? 128)%N then N_of_ascii a else 0xFFFD%N
  | String a (String b "") =>
      if (0xC2 <=? N_of_ascii a)%N && (N_of_ascii a <? 0xE0)%N
      then ((N_of_ascii a - 0xC0) * 64 + low b)%N
      else 0xFFFD%N
  | String a (String b (String c "")) =>
      let cp := ((N_of_ascii a - 0xE0) * 4096 + low b * 64 + low c)%N in
      if (0xE0 <=? N_of_ascii a)%N && (N_of_ascii a <? 0xF0)%N
         && (0x800 <=? cp)%N && negb ((0xD800 <=? cp)%N && (cp <? 0xE000)%N)
      then cp else 0xFFFD%N
  | String a (String b (String c (String d ""))) =>
      let cp :=
        ((N_of_ascii a - 0xF0) * 262144 + low b * 4096 + low c * 64 + low d)%N in
      if (0xF0 <=? N_of_ascii a)%N && (N_of_ascii a <? 0xF5)%N
         && (0x10000 <=? cp)%N && (cp <? 0x110000)%N
      then cp else 0xFFFD%N
  | _ => 0xFFFD%N
  end.

(** The code points of a text. *)
Definition ords (s : string) : list N := ord <$> chars s.

(** [str.isspace] of one code point. *)
Definition isspace (cp : N) : bool :=
  ((9 <=? cp) && (cp <=? 13) || (28 <=? cp) && (cp <=? 32)
   || (cp =? 0x85) || (cp =? 0xA0) || (cp =? 0x1680)
   || (0x2000 <=? cp) && (cp <=? 0x200A)
   || (cp =? 0x2028) || (cp =? 0x2029) || (cp =? 0x202F)
   || (cp =? 0x205F) || (cp =? 0x3000))%N.

(** Leading white space dropped, character by character. *)
Fixpoint lstrip_chars (l : list string) : list string :=
  match l with
  | char :: l' => if isspace (ord char) then lstrip_chars l' else l
  | [] => []
  end.

Definition rstrip_chars (l : list string) : list string :=
  reverse (lstrip_chars (reverse l)).

(** The characters put together again. *)
Definition join (l : list string) : string := foldr String.app "" l.

(** [s.strip()] *)
Definition strip (s : string) : string :=
  join (rstrip_chars (lstrip_chars (chars s))).

(** Every character of [s] is white space ([s] may be empty). *)
Definition blank (s : string) : bool :=
  forallb (λ char, isspace (ord char)) (chars s).

(** The code points of the digits zero of the decimal digits outside
    ASCII (Unicode 14.0, the version of the interpreter's database);
    the nine code points after each are its digits one to nine. *)
Definition decimal_zeros : list N :=
  [0x660; 0x6f0; 0x7c0; 0x966; 0x9e6; 0xa66; 0xae6; 0xb66; 0xbe6; 0xc66;
   0xce6; 0xd66; 0xde6; 0xe50; 0xed0; 0xf20; 0x1040; 0x1090; 0x17e0; 0x1810;
   0x1946; 0x19d0; 0x1a80; 0x1a90; 0x1b50; 0x1bb0; 0x1c40; 0x1c50; 0xa620;
   0xa8d0; 0xa900; 0xa9d0; 0xa9f0; 0xaa50; 0xabf0; 0xff10; 0x104a0; 0x10d30;
   0x11066; 0x110f0; 0x11136; 0x111d0; 0x112f0; 0x11450; 0x114d0; 0x11650;
   0x116c0; 0x11730; 0x118e0; 0x11950; 0x11c50; 0x11d50; 0x11da0; 0x16a60;
   0x16ac0; 0x16b50; 0x1d7ce; 0x1d7d8; 0x1d7e2; 0x1d7ec; 0x1d7f6; 0x1e140;
   0x1e2f0; 0x1e950; 0x1fbf0]%N.

(** The value of a code point as a decimal digit. *)
Definition decimal (cp : N) : option Z :=
  if (cp <? 127)%N then
    if (48 <=? cp)%N && (cp <=? 57)%N then Some (Z.of_N cp - 48) else None
  else
    (λ zero, Z.of_N (cp - zero)) <$>
      List.find (λ zero, (zero <=? cp)%N && (cp <? zero + 10)%N) decimal_zeros.

(** The white space [int] accepts around the digits: of the ASCII
    characters only those of C's [isspace]; U+001C to U+001F are white
    space for [str.strip] but not here. *)
Definition int_space (cp : N) : bool :=
  ((9 <=? cp) && (cp <=? 13) || (cp =? 32) || (127 <=? cp) && isspace cp)%N.

Fixpoint lstrip_int (l : list N) : list N :=
  match l with
  | cp :: l' => if int_space cp then lstrip_int l' else l
  | [] => []
  end.

(** The digits of an integer literal, with single underscores allowed
    between digits, and white space after the last digit;
    [after_digit] tells whether the previous character was a digit. *)
Fixpoint digits (acc : Z) (after_digit : bool) (l : list N) : option Z :=
  match l with
  | [] => if after_digit then Some acc else None
  | cp :: l' =>
      match decimal cp with
      | Some d => digits (10 * acc + d) true l'
      | None =>
          if (cp =? 95)%N then
            if after_digit then digits acc false l' else None
          else if after_digit && forallb int_space l then Some acc
          else None
      end
  end.

(** The integer a string denotes for [int]: white space around it is
    dropped, a sign may come first, the rest are decimal digits.  The
    limit on the number of digits that the interpreter can be set to
    ([sys.set_int_max_str_digits]) is left out. *)
Definition parse_int (s : string) : option Z :=
  match lstrip_int (ords s) with
  | cp :: l =>
      if (cp =? 45)%N then Z.opp <$> digits 0 false l
      else if (cp =? 43)%N then digits 0 false l
      else digits 0 false (cp :: l)
  | [] => None
  end.

(** [int(v)] for [v] a [str] or [None]. *)
Definition int (v : value) : result Z :=
  match v with
  | None => Raise TypeError
  | Some s =>
      match parse_int s with
      | Some z => Ok z
      | None => Raise ValueError
      end
  end.

(** [str(n)] for an [int]. *)
Definition str (n : Z) : string := pretty n.

(** The values of a generator [f(x) for x in l], where [f] may raise:
    the first exception ends the iteration. *)
Fixpoint traverse {A B : Type} (f : A → result B) (l : list A)
  : result (list B) :=
  match l with
  | [] => Ok []
  | x :: l' => y ← f x; ys ← traverse f l'; Ok (y :: ys)
  end.

(** [sum] of integers: added from the left onto the start value 0. *)
Definition sum (l : list Z) : Z := foldl Z.add 0 l.

End Py.

(** ** The [csv] module, at the level of rows *)

Module csv.

Abbreviation row := (list string).

(** The content of a file: the rows [csv.reader] yields, in order. *)
Abbreviation file := (list (list string)).

(** The [dict] that [DictReader] makes of one row. *)
Record dict : Type := Dict {
  fields : gmap string Py.value;
  rest : option (list string)
}.

Global Instance dict_eq_dec : EqDecision dict.
Proof. solve_decision. Defined.

(** [d[key]] *)
Definition getitem (d : dict) (key : string) : Py.result Py.value :=
  match fields d !! key with
  | Some v => Py.Ok v
  | None => Py.Raise (Py.KeyError key)
  end.

(** [d[key] = v] *)
Definition setitem (d : dict) (key : string) (v : Py.value) : dict :=
  Dict (<[key := v]> (fields d)) (rest d).

(** [d.setdefault(key, default)], for its effect on [d]. *)
Definition setdefault (d : dict) (key : string) (default : string) : dict :=
  match fields d !! key with
  | Some _ => d
  | None => setitem d key (Some default)
  end.

(** [DictReader.__next__] on a row that is not empty:
    [d = dict(zip(fieldnames, row))], then the surplus cells go under
    [restkey], or the missing columns get [restval], which is [None]. *)
Definition dict_of_row (fieldnames row : list string) : dict :=
  let d := foldl (λ d kv, <[kv.1 := Some kv.2]> d) ∅ (zip fieldnames row) in
  let lf := length fieldnames in
  let lr := length row in
  if decide (lf < lr)%nat then Dict d (Some (drop lf row))
  else Dict (foldl (λ d key, <[key := None]> d) d (drop lr fieldnames)) None.

(** Iterating over [csv.DictReader(file)]: the first row gives the field
    names, and empty rows after it are skipped. *)
Definition DictReader (f : file) : list dict :=
  match f with
  | [] => []
  | fieldnames :: rows =>
      dict_of_row fieldnames <$> filter (λ r, r ≠ []) rows
  end.

(** What [writer.writerow] writes for one cell: [None] is written as the
    empty string. *)
Definition cell (v : Py.value) : string := default "" v.

(** What reading in text mode makes of a text that was written with
    [newline=""]: CRLF and CR become LF. *)
Fixpoint universal_newlines (s : string) : string :=
  match s with
  | EmptyString => EmptyString
  | String c s' =>
      if decide (c = "013"%char) then
        String "010"
          match s' with
          | String c' s'' =>
              if decide (c' = "010"%char) then universal_newlines s''
              else universal_newlines s'
          | EmptyString => EmptyString
          end
      else String c (universal_newlines s')
  end.

(** The row a later read yields of the cells [writer.writerow] writes. *)
Definition writerow (cells : list string) : row :=
  universal_newlines <$> cells.

End csv.

(** ** Message boxes *)

Inductive dialog : Type :=
| warning (title text : string)
| critical (title text : string).

(** ** [class CSVHandler] *)

Module CSVHandler.
Import csv.

(** Path to file content; no entry: the file does not exist. *)
Abbreviation filesystem := (gmap string (list (list string))).

Definition USER_DATA_DIR : string := "user_data".

Definition HEADER : row := ["Date"; "Category"; "Activity"; "TimeSpent"].

(** [os.path.join(USER_DATA_DIR, f"{user_id}_data.csv")] with the POSIX
    separator: a second component that starts with the separator
    replaces the first. *)
Definition user_file (user_id : string) : string :=
  let name := user_id +:+ "_data.csv" in
  if String.prefix "/" name then name
  else USER_DATA_DIR +:+ "/" +:+ name.

(** [initialize_csv] where the directory of the user's file exists once
    [USER_DATA_DIR] is made, as it does for every user id without a
    separator; [initialize_csv_on] below has the directories. *)
Definition initialize_csv (fs : filesystem) (user_id : string) : filesystem :=
  match fs !! user_file user_id with
  | None => <[user_file user_id := [HEADER]]> fs
  | Some _ => fs
  end.

(** The files with the directories that exist, each under the name
    [os.path.dirname] gives it as the directory of a path; the working
    directory, whose name is empty, always exists. *)
Record disk : Type := Disk {
  dirs : gset string;
  files : gmap string (list (list string))
}.

(** The part of a path up to its last separator, the separator
    included; [None] where it has no separator. *)
Fixpoint path_head (path : string) : option string :=
  match path with
  | EmptyString => None
  | String c path' =>
      match path_head path' with
      | Some h => Some (String c h)
      | None => if decide (c = "/"%char) then Some "/" else None
      end
  end.

(** [s.rstrip("/")] *)
Fixpoint rstrip_sep (s : string) : string :=
  match s with
  | EmptyString => EmptyString
  | String c s' =>
      match rstrip_sep s' with
      | EmptyString => if decide (c = "/"%char) then "" else String c ""
      | r => String c r
      end
  end.

(** [os.path.dirname(path)] with the POSIX separator: trailing separators
    of the head are dropped unless it consists of separators only. *)
Definition dirname (path : string) : string :=
  match path_head path with
  | None => ""
  | Some h => if decide (rstrip_sep h = "") then h else rstrip_sep h
  end.

(** [os.path.exists(path)] *)
Definition exists_ (d : disk) (path : string) : bool :=
  bool_decide (is_Some (files d !! path)) || bool_decide (path ∈ dirs d).

(** [os.makedirs(USER_DATA_DIR, exist_ok=True)]: the directory is made in
    the working directory unless it is there; a file of that name is in
    the way. *)
Definition makedirs (d : disk) : disk * Py.result unit :=
  if bool_decide (USER_DATA_DIR ∈ dirs d) then (d, Py.Ok ())
  else if bool_decide (is_Some (files d !! USER_DATA_DIR)) then
    (d, Py.Raise Py.FileExistsError)
  else (Disk ({[USER_DATA_DIR]} ∪ dirs d) (files d), Py.Ok ()).

(** [open(path, "w")] followed by the writing of [content]: the file is
    made or replaced where its directory exists, which the working
    directory and the root always do; a file in the place of the
    directory is no directory.  This is for a path as it is
    written, without the components [.] and [..] and without repeated
    separators. *)
Definition open_w (d : disk) (path : string) (content : list (list string))
  : disk * Py.result unit :=
  if bool_decide (path ∈ dirs d) then (d, Py.Raise Py.IsADirectoryError)
  else if bool_decide (rstrip_sep (dirname path) = "" ∨ dirname path ∈ dirs d)
  then (Disk (dirs d) (<[path := content]> (files d)), Py.Ok ())
  else if bool_decide (is_Some (files d !! dirname path)) then
    (d, Py.Raise Py.NotADirectoryError)
  else (d, Py.Raise Py.FileNotFoundError).

(** [initialize_csv] with the directories: only [USER_DATA_DIR] is made,
    and no exception is handled. *)
Definition initialize_csv_on (d : disk) (user_id : string)
  : disk * Py.result unit :=
  if exists_ d (user_file user_id) then (d, Py.Ok ())
  else
    match makedirs d with
    | (d', Py.Raise e) => (d', Py.Raise e)
    | (d', Py.Ok _) => open_w d' (user_file user_id) [HEADER]
    end.

(** The activities read, and the message boxes shown.  Within the model
    the only failure of [open] is the missing file, so the handler of
    other exceptions is never entered. *)
Definition read_all_activities (fs : filesystem) (user_id : string)
  : list dict * list dialog :=
  match fs !! user_file user_id with
  | Some f =>
      ((λ row, setdefault row "Category" "Other") <$> DictReader f, [])
  | None =>
      ([], [warning "File Not Found"
              "No data file found. A new one will be created."])
  end.

(** The loop of [read_activities_for_today]: [row["Date"]] raises
    [KeyError] where the file has no such column, and that exception is
    not caught. *)
Fixpoint rows_for_today (today : string) (rows : list dict)
  : Py.result (list dict) :=
  match rows with
  | [] => Py.Ok []
  | row :: rows' =>
      date ← getitem row "Date";
      if decide (date = Some today) then
        activities ← rows_for_today today rows';
        Py.Ok (setdefault row "Category" "Other" :: activities)
      else rows_for_today today rows'
  end.

Definition read_activities_for_today
  (fs : filesystem) (user_id today : string) : Py.result (list dict) :=
  match fs !! user_file user_id with
  | Some f => rows_for_today today (DictReader f)
  | None => Py.Ok []
  end.

(** The row [write_activities] writes for one activity. *)
Definition row_of (activity : dict) : Py.result row :=
  date ← getitem activity "Date";
  category ← getitem activity "Category";
  name ← getitem activity "Activity";
  time ← getitem activity "TimeSpent";
  Py.Ok (writerow [cell date; cell category; cell name; cell time]).

(** The rows written until the loop ends or a lookup raises; a
    [KeyError] is not an [IOError], so it leaves the file with what was
    written before it and reaches the caller. *)
Fixpoint written (activities : list dict) : list row * Py.result unit :=
  match activities with
  | [] => ([], Py.Ok ())
  | activity :: rest =>
      match row_of activity with
      | Py.Ok r => let '(rs, res) := written rest in (r :: rs, res)
      | Py.Raise e => ([], Py.Raise e)
      end
  end.

Definition write_activities
  (activities : list dict) (fs : filesystem) (user_id : string)
  : filesystem * Py.result unit :=
  let '(rows, res) := written activities in
  (<[user_file user_id := HEADER :: rows]> fs, res).

Definition clear_history (fs : filesystem) (user_id : string) : filesystem :=
  <[user_file user_id := [HEADER]]> fs.

End CSVHandler.

(** ** [class AccumulativeHourApp]: the handlers that touch the store *)

Module AccumulativeHourApp.
Import csv CSVHandler.

(** The fields of [self] that the handlers below use, with the file
    system they act on. *)
Record app : Type := App {
  fs : filesystem;
  user_id : string;
  daily_goal : Z
}.

Definition with_fs (self : app) (fs' : filesystem) : app :=
  App fs' (user_id self) (daily_goal self).

(** [int(activity["TimeSpent"])] *)
Definition time_spent (activity : dict) : Py.result Z :=
  v ← getitem activity "TimeSpent"; Py.int v.

(** [sum(int(activity["TimeSpent"]) for activity in activities)] *)
Definition total_time (activities : list dict) : Py.result Z :=
  ts ← Py.traverse time_spent activities; Py.Ok (Py.sum ts).

(** [max(self.daily_goal - total_time, 0)] *)
Definition remaining_time (goal total : Z) : Z := Z.max (goal - total) 0.

(** The text of [QTableWidgetItem(v)]: [None] makes an item without
    text. *)
Definition item (v : Py.value) : Py.result string :=
  Py.Ok (default "" v).

(** The cells [load_activities] puts in the table, row by row. *)
Definition load_activities (self : app) (today : string)
  : Py.result (list (list string)) :=
  activities ← read_activities_for_today (fs self) (user_id self) today;
  Py.traverse (λ activity,
    c ← getitem activity "Category"; c ← item c;
    a ← getitem activity "Activity"; a ← item a;
    t ← getitem activity "TimeSpent"; t ← item t;
    Py.Ok [c; a; t]) activities.

(** The two numbers [update_pie_chart] shows: the time completed today
    and the time remaining.  The chart itself and the notice that the
    goal is reached are left out. *)
Definition update_pie_chart (self : app) (today : string)
  : Py.result (Z * Z) :=
  activities ← read_activities_for_today (fs self) (user_id self) today;
  total ← total_time activities;
  Py.Ok (total, remaining_time (daily_goal self) total).

(** The generator
    [int(a["TimeSpent"]) for a in activities if a["Date"] == activity["Date"]]. *)
Fixpoint times_on_date (activity : dict) (activities : list dict)
  : Py.result (list Z) :=
  match activities with
  | [] => Py.Ok []
  | a :: rest =>
      da ← getitem a "Date";
      d ← getitem activity "Date";
      if decide (da = d) then
        t ← time_spent a;
        ts ← times_on_date activity rest;
        Py.Ok (t :: ts)
      else times_on_date activity rest
  end.

(** The elements of the set comprehension of [update_stats], in the
    order they are added: [activity["Date"]] for each activity on whose
    date the time sums up to the goal at least.  [all] is the list the
    inner generator runs over. *)
Fixpoint goal_dates (goal : Z) (all activities : list dict)
  : Py.result (list Py.value) :=
  match activities with
  | [] => Py.Ok []
  | activity :: rest =>
      ts ← times_on_date activity all;
      if decide (goal ≤ Py.sum ts) then
        d ← getitem activity "Date";
        ds ← goal_dates goal all rest;
        Py.Ok (d :: ds)
      else goal_dates goal all rest
  end.

(** [len(set(l))] *)
Definition distinct (l : list Py.value) : nat :=
  size (list_to_set l : gset Py.value).

Definition days_completed_goal (activities : list dict) (goal : Z)
  : Py.result nat :=
  ds ← goal_dates goal activities activities; Py.Ok (distinct ds).

(** The five numbers of [update_stats]. *)
Record stats : Type := Stats {
  total_activities : nat;
  unique_activities : nat;
  stats_total_time : Z;
  days_logged : nat;
  stats_days_completed_goal : nat
}.

Definition update_stats (self : app) : Py.result stats * list dialog :=
  let '(activities, shown) := read_all_activities (fs self) (user_id self) in
  (names ← Py.traverse (λ a, getitem a "Activity") activities;
   total ← total_time activities;
   dates ← Py.traverse (λ a, getitem a "Date") activities;
   completed ← days_completed_goal activities (daily_goal self);
   Py.Ok (Stats (length activities) (distinct names) total
            (distinct dates) completed),
   shown).

(** What every handler does after it changed the file. *)
Definition refresh (self : app) (today : string) : Py.result unit :=
  _ ← load_activities self today;
  _ ← update_pie_chart self today;
  Py.Ok ().

(** [add_activity]; [category], [text] and [duration] are the contents
    of the three input widgets.  Opening a file for appending creates it
    when it does not exist. *)
Definition add_activity
  (self : app) (category text : string) (duration : Z) (today : string)
  : app * Py.result unit :=
  let activity := Py.strip text in
  if decide (activity ≠ "") then
    let path := user_file (user_id self) in
    let old := default [] (fs self !! path) in
    let self' :=
      with_fs self
        (<[path :=
             (old ++ [writerow [today; category; activity;
                                Py.str duration]])%list]>
           (fs self)) in
    (self', refresh self' today)
  else (self, Py.Ok ()).

(** [edit_activity], from the answers of the two input dialogs on: the
    texts and the [ok] flags they return.  [row_idx] is the row of the
    table, which shows today's activities. *)
Definition edit_activity
  (self : app) (row_idx : nat)
  (new_activity : string) (ok_activity : bool)
  (new_time : Z) (ok_time : bool) (today : string)
  : app * Py.result unit :=
  if ok_activity && ok_time then
    match read_activities_for_today (fs self) (user_id self) today with
    | Py.Raise e => (self, Py.Raise e)
    | Py.Ok activities =>
        match activities !! row_idx with
        | None => (self, Py.Raise Py.IndexError)
        | Some a =>
            let a := setitem a "Activity" (Some new_activity) in
            let a := setitem a "TimeSpent" (Some (Py.str new_time)) in
            let '(fs', res) :=
              write_activities (<[row_idx := a]> activities)
                (fs self) (user_id self) in
            let self' := with_fs self fs' in
            (self', _ ← res; refresh self' today)
        end
    end
  else (self, Py.Ok ()).

(** [delete_activity], from the answer of the confirmation on. *)
Definition delete_activity
  (self : app) (row_idx : nat) (confirm : bool) (today : string)
  : app * Py.result unit :=
  if confirm then
    match read_activities_for_today (fs self) (user_id self) today with
    | Py.Raise e => (self, Py.Raise e)
    | Py.Ok activities =>
        match activities !! row_idx with
        | None => (self, Py.Raise Py.IndexError)
        | Some _ =>
            let '(fs', res) :=
              write_activities (delete row_idx activities)
                (fs self) (user_id self) in
            let self' := with_fs self fs' in
            (self', _ ← res; refresh self' today)
        end
    end
  else (self, Py.Ok ()).

(** A message box of the application: one that [CSVHandler] showed, or
    the notice a handler ends with. *)
Inductive message : Type :=
| shown (d : dialog)
| information (title text : string).

(** [show_history]: the cells put in the history table, row by row, and
    the message boxes of the reading. *)
Definition show_history (self : app)
  : Py.result (list (list string)) * list dialog :=
  let '(activities, dialogs) := read_all_activities (fs self) (user_id self) in
  (Py.traverse (λ activity,
     d ← getitem activity "Date"; d ← item d;
     c ← getitem activity "Category"; c ← item c;
     a ← getitem activity "Activity"; a ← item a;
     t ← getitem activity "TimeSpent"; t ← item t;
     Py.Ok [d; c; a; t]) activities,
   dialogs).

(** The end of [update_pie_chart]: whether the notice that the goal is
    reached is shown, and the setting [goal_reached_today] afterwards,
    from the setting before. *)
Definition goal_notice (goal total : Z) (reached : bool) : bool * bool :=
  if bool_decide (goal ≤ total) && negb reached then (true, true)
  else if bool_decide (total < goal) then (false, false)
  else (false, reached).

(** [load_user_data]: the file is initialised, then the table, the chart
    and the statistics are filled; an exception ends it where it is
    raised. *)
Definition load_user_data (self : app) (today : string)
  : app * Py.result unit * list dialog :=
  let self' := with_fs self (initialize_csv (fs self) (user_id self)) in
  match refresh self' today with
  | Py.Raise e => (self', Py.Raise e, [])
  | Py.Ok _ =>
      let '(st, dialogs) := update_stats self' in
      (self', (_ ← st; Py.Ok ()), dialogs)
  end.

(** What [__init__] does with the store, through [init_ui]: setting up
    the home tab fills the table and the chart, setting up the stats tab
    fills the statistics, and only then [load_user_data] initialises the
    file and fills them again. *)
Definition init_ui (self : app) (today : string)
  : app * Py.result unit * list dialog :=
  match refresh self today with
  | Py.Raise e => (self, Py.Raise e, [])
  | Py.Ok _ =>
      match update_stats self with
      | (Py.Raise e, dialogs) => (self, Py.Raise e, dialogs)
      | (Py.Ok _, dialogs) =>
          let '(self', res, dialogs') := load_user_data self today in
          (self', res, (dialogs ++ dialogs')%list)
      end
  end.

(** [login], from the answer of the input dialog on. *)
Definition login (self : app) (user_id : string) (ok : bool) (today : string)
  : app * Py.result unit * list dialog :=
  if ok && bool_decide (user_id ≠ "") then
    load_user_data (App (fs self) user_id (daily_goal self)) today
  else (self, Py.Ok (), []).

(** [load_user_data] with the directories: an exception of
    [initialize_csv] ends it before anything is read, and where the path
    of the user's file is a directory the first reading raises, as
    [read_activities_for_today] handles [FileNotFoundError] only. *)
Definition load_user_data_on
    (directories : gset string) (self : app) (today : string)
  : gset string * (app * Py.result unit * list dialog) :=
  match initialize_csv_on (Disk directories (fs self)) (user_id self) with
  | (d, Py.Raise e) => (dirs d, (with_fs self (files d), Py.Raise e, []))
  | (d, Py.Ok _) =>
      let self' := with_fs self (files d) in
      if bool_decide (user_file (user_id self) ∈ dirs d) then
        (dirs d, (self', Py.Raise Py.IsADirectoryError, []))
      else
        match refresh self' today with
        | Py.Raise e => (dirs d, (self', Py.Raise e, []))
        | Py.Ok _ =>
            let '(st, dialogs) := update_stats self' in
            (dirs d, (self', (_ ← st; Py.Ok ()), dialogs))
        end
  end.

(** [login] with the directories. *)
Definition login_on
    (directories : gset string) (self : app) (user_id : string) (ok : bool)
    (today : string)
  : gset string * (app * Py.result unit * list dialog) :=
  if ok && bool_decide (user_id ≠ "") then
    load_user_data_on directories
      (App (fs self) user_id (daily_goal self)) today
  else (directories, (self, Py.Ok (), [])).

(** [register], from the answer of the input dialog on. *)
Definition register (self : app) (user_id : string) (ok : bool)
    (today : string)
  : app * Py.result unit * list dialog :=
  if ok && bool_decide (user_id ≠ "") then
    load_user_data
      (App (initialize_csv (fs self) user_id) user_id (daily_goal self)) today
  else (self, Py.Ok (), []).

(** [AccumulativeHourApp.clear_history], from the answer of the
    confirmation on. *)
Definition clear_history (self : app) (confirm : bool) (today : string)
  : app * Py.result unit * list message :=
  if confirm then
    let self' :=
      with_fs self (CSVHandler.clear_history (fs self) (user_id self)) in
    match refresh self' today with
    | Py.Raise e => (self', Py.Raise e, [])
    | Py.Ok _ =>
        match update_stats self' with
        | (Py.Raise e, dialogs) => (self', Py.Raise e, shown <$> dialogs)
        | (Py.Ok _, dialogs) =>
            (self', Py.Ok (),
             (shown <$> dialogs) ++
               [information "History Cleared" "All history has been cleared."])%list
        end
    end
  else (self, Py.Ok (), []).

(** The body that [backup_data] and [export_history] share: [file_name]
    is the answer of the file dialog (empty when it was cancelled), and
    [confirm] the answer to the question whether to overwrite, which is
    asked only when the file exists.  The writing has no handler of its
    own for exceptions. *)
Definition save_copy (notice : message) (self : app)
    (file_name : string) (confirm : bool)
  : app * Py.result unit * list message :=
  if bool_decide (file_name ≠ "") then
    if bool_decide (is_Some (fs self !! file_name)) && negb confirm then
      (self, Py.Ok (), [])
    else
      let '(activities, dialogs) :=
        read_all_activities (fs self) (user_id self) in
      let '(rows, res) := written activities in
      let self' := with_fs self (<[file_name := HEADER :: rows]> (fs self)) in
      match res with
      | Py.Raise e => (self', Py.Raise e, shown <$> dialogs)
      | Py.Ok _ => (self', Py.Ok (), (shown <$> dialogs) ++ [notice])%list
      end
  else (self, Py.Ok (), []).

Definition backup_data : app → string → bool → app * Py.result unit * list message :=
  save_copy (information "Backup Successful" "Data backed up successfully!").

Definition export_history : app → string → bool → app * Py.result unit * list message :=
  save_copy (information "Export Successful" "History exported successfully!").

End AccumulativeHourApp.

(** ** Vocabulary of the statements *)

Module Spec.
Import csv CSVHandler AccumulativeHourApp.

(** One press of the submit button: the contents of the input widgets
    and the date of the day. *)
Record submission : Type := Submission {
  sub_category : string;
  sub_text : string;
  sub_duration : Z;
  sub_today : string
}.

(** The state after a sequence of submissions, in order. *)
Definition submit_all (self : app) (subs : list submission) : app :=
  foldl (λ self s,
    (add_activity self (sub_category s) (sub_text s) (sub_duration s)
       (sub_today s)).1) self subs.

(** A submission whose activity name is not blank. *)
Definition named (s : submission) : Prop := Py.blank (sub_text s) = false.

Global Instance named_dec s : Decision (named s).
Proof. unfold named. apply _. Defined.

(** The record of four fields. *)
Definition record (date category activity time : string) : dict :=
  Dict (<["TimeSpent" := Some time]> (<["Activity" := Some activity]>
         (<["Category" := Some category]> (<["Date" := Some date]> ∅))))
       None.

(** The record of a submission as it was submitted. *)
Definition submitted (s : submission) : dict :=
  record (sub_today s) (sub_category s) (Py.strip (sub_text s))
    (Py.str (sub_duration s)).

(** The record of a submission as it is read back. *)
Definition record_of (s : submission) : dict :=
  record (universal_newlines (sub_today s))
    (universal_newlines (sub_category s))
    (universal_newlines (Py.strip (sub_text s)))
    (Py.str (sub_duration s)).

(** The row a submission appends. *)
Definition row_of_submission (s : submission) : row :=
  writerow [sub_today s; sub_category s; Py.strip (sub_text s);
            Py.str (sub_duration s)].

(** The store as the application itself leaves it: the column header,
    then rows of four cells. *)
Definition well_formed (f : file) : Prop :=
  ∃ rows, f = HEADER :: rows ∧ Forall (λ r : row, length r = 4%nat) rows.

(** A text of ASCII characters only. *)
Fixpoint is_ascii (s : string) : bool :=
match s with
| String c s' => (N_of_ascii c <? 128)%N && is_ascii s'
| EmptyString => true
end.

(** Its bytes, as numbers. *)
Fixpoint codes (s : string) : list N :=
match s with
| String c s' => N_of_ascii c :: codes s'
| EmptyString => []
end.

(** A text without CR. *)
Fixpoint no_cr (s : string) : bool :=
match s with
| String c s' => negb (bool_decide (c = "013"%char)) && no_cr s'
| EmptyString => true
end.

(** A file all of whose cells are as universal newlines leave them, as
    is the content of every file that was read. *)
Definition as_read (f : file) : Prop :=
Forall (Forall (λ c : string, no_cr c = true)) f.

(** A user id without a separator. *)
Fixpoint plain (user_id : string) : bool :=
match user_id with
| String c s' => negb (bool_decide (c = "/"%char)) && plain s'
| EmptyString => true
end.

(** The rows of a well-formed store whose date cell is [today]. *)
Definition today_rows (today : string) (rows : list row) : list row :=
  filter (λ r : row, r !! 0%nat = Some today) rows.

(** A record with a date and with a time that [int] accepts. *)
Definition readable (activity : dict) : Prop :=
∃ d t, fields activity !! "Date" = Some d ∧ time_spent activity = Py.Ok t.

(** The time of a readable record. *)
Definition minutes (activity : dict) : Z :=
match time_spent activity with
| Py.Ok t => t
| Py.Raise _ => 0
end.

(** The per-date sum: the time of all records dated [d]. *)
Definition day_total (activities : list dict) (d : Py.value) : Z :=
Py.sum (minutes <$> filter (λ a, fields a !! "Date" = Some d) activities).

(** The distinct dates of a list of records. *)
Definition dates (activities : list dict) : gset Py.value :=
list_to_set (omap (λ a, fields a !! "Date") activities).

(** [activity["Date"] == today] *)
Definition dated (today : string) (activity : dict) : Prop :=
  fields activity !! "Date" = Some (Some today).

Global Instance dated_dec today activity : Decision (dated today activity).
Proof. unfold dated. apply _. Defined.

(** What is read back of an activity that was written: the four cells,
    [None] as the empty string and CR or CRLF as LF, and nothing else. *)
Definition normalise (activity : dict) : dict :=
let read key := universal_newlines (cell (default None (fields activity !! key))) in
record (read "Date") (read "Category") (read "Activity") (read "TimeSpent").

(** An activity that has the four keys [write_activities] looks up. *)
Definition writable (activity : dict) : Prop :=
is_Some (fields activity !! "Date") ∧ is_Some (fields activity !! "Category") ∧
is_Some (fields activity !! "Activity") ∧ is_Some (fields activity !! "TimeSpent").

Global Instance writable_dec activity : Decision (writable activity).
Proof. unfold writable. apply _. Defined.

(** The record of a row of four cells. *)
Definition shows (r : row) (a : dict) : Prop :=
∃ d c n t, r = [d; c; n; t] ∧ a = record d c n t.


(** The directory of [path] is there once [USER_DATA_DIR] is made: it is
    that directory, or it exists already, or it is the working directory
    or the root. *)
Definition directory_ready (d : disk) (path : string) : Prop :=
rstrip_sep (dirname path) = "" ∨ dirname path = USER_DATA_DIR ∨
dirname path ∈ dirs d.

End Spec.

Import csv CSVHandler AccumulativeHourApp Spec.

(** * Properties *)

(** ** Python primitives *)

Example strip_ex : Py.strip "  Email  " = "Email".
Proof. reflexivity. Qed.

(** White space outside ASCII, here U+00A0 and U+3000 in their
    encodings, is white space for [strip]; so is U+001C, which [int]
    does not accept, while it accepts the digits outside ASCII, here
    U+FF15. *)
Example strip_unicode_ex :
  let nbsp := String "194" (String "160" "") in
  let ideographic := String "227" (String "128" (String "128" "")) in
  Py.strip (nbsp +:+ "Email" +:+ ideographic) = "Email" ∧
  Py.blank (" " +:+ nbsp +:+ ideographic) = true ∧
  Py.strip (String "028" "5") = "5".
Proof. repeat split. Qed.

Example int_unicode_ex :
  let nbsp := String "194" (String "160" "") in
  let fullwidth_five := String "239" (String "188" (String "149" "")) in
  Py.int (Some (String "028" "5")) = Py.Raise Py.ValueError ∧
  Py.int (Some (nbsp +:+ "5" +:+ nbsp)) = Py.Ok 5 ∧
  Py.int (Some ("1" +:+ fullwidth_five)) = Py.Ok 15.
Proof. repeat split. Qed.

Example int_ex :
  Py.int (Some " -1_0 ") = Py.Ok (-10) ∧
  Py.int (Some "1__0") = Py.Raise Py.ValueError ∧
  Py.int None = Py.Raise Py.TypeError.
Proof. repeat split. Qed.

Example str_ex : Py.str 30 = "30" ∧ Py.int (Some (Py.str 300)) = Py.Ok 300.
Proof. split; reflexivity. Qed.

Lemma chars_cons c s :
  ∃ char rest, Py.chars (String c s) = char :: rest ∧ char ≠ "" ∧
               Py.join (char :: rest) = String c (Py.join (Py.chars s)).
Proof.
  simpl. destruct (Py.chars s) as [|[|c' tok] rest]; simpl.
  - by eexists _, _.
  - by eexists _, _.
  - destruct (Py.continuation c'); by eexists _, _.
Qed.

Lemma join_chars s : Py.join (Py.chars s) = s.
Proof.
  induction s as [|c s IH]; [done|].
  destruct (chars_cons c s) as (char & rest & -> & _ & ->). by rewrite IH.
Qed.

Lemma chars_nonempty s : Forall (λ char, char ≠ "") (Py.chars s).
Proof.
  induction s as [|c s IH]; [constructor|]. simpl.
  destruct (Py.chars s) as [|[|c' tok] rest]; simpl.
  - by repeat constructor.
  - inversion IH; by constructor.
  - inversion_clear IH. destruct (Py.continuation c'); by repeat constructor.
Qed.

Lemma join_nil (l : list string) :
  Forall (λ char, char ≠ "") l → Py.join l = "" → l = [].
Proof.
  destruct 1 as [|char l Hchar _]; [done|]. simpl.
  by destruct char.
Qed.

Lemma lstrip_chars_nil l :
  Py.lstrip_chars l = [] ↔ forallb (λ char, Py.isspace (Py.ord char)) l = true.
Proof.
  induction l as [|char l IH]; simpl; [done|].
  destruct (Py.isspace (Py.ord char)); simpl; [done|]. split; discriminate.
Qed.

Lemma lstrip_chars_Forall (P : string → Prop) l :
  Forall P l → Forall P (Py.lstrip_chars l).
Proof.
  induction 1 as [|char l Hc Hl IH]; simpl; [constructor|].
  destruct (Py.isspace (Py.ord char)); [done | by constructor].
Qed.

Lemma forallb_reverse {A} (f : A → bool) (l : list A) :
  forallb f (reverse l) = forallb f l.
Proof.
  induction l as [|x l IH]; [done|].
  rewrite reverse_cons, forallb_app, IH. simpl. by destruct (f x), (forallb f l).
Qed.

Lemma forallb_lstrip_chars l :
  forallb (λ char, Py.isspace (Py.ord char)) (Py.lstrip_chars l) = true →
  forallb (λ char, Py.isspace (Py.ord char)) l = true.
Proof.
  induction l as [|char l IH]; simpl; [done|].
  destruct (Py.isspace (Py.ord char)) eqn:Hc; simpl; [done|].
  by rewrite Hc.
Qed.

(** [strip] leaves nothing exactly of the strings that are blank. *)
Lemma strip_empty_iff s : Py.strip s = "" ↔ Py.blank s = true.
Proof.
  unfold Py.strip, Py.blank, Py.rstrip_chars. split.
  - intros H. apply join_nil in H.
    + apply (f_equal reverse) in H. rewrite reverse_involutive in H.
      apply lstrip_chars_nil in H. rewrite forallb_reverse in H.
      by apply forallb_lstrip_chars.
    + apply Forall_reverse, lstrip_chars_Forall, Forall_reverse,
        lstrip_chars_Forall, chars_nonempty.
  - intros H. apply lstrip_chars_nil in H. by rewrite H.
Qed.

(** [str] and [int] *)

Lemma chars_ascii s :
  is_ascii s = true → Py.chars s = (λ c, String c "") <$> String.list_ascii_of_string s.
Proof.
  induction s as [|c s IH]; [done|]. simpl.
  intros [Hc Hs]%andb_true_iff. rewrite (IH Hs).
  destruct s as [|c' s]; [done|]. simpl in *.
  apply andb_true_iff in Hs as [Hc' _].
  unfold Py.continuation.
  by rewrite (proj2 (N.leb_gt _ _) (proj1 (N.ltb_lt _ _) Hc')).
Qed.

Lemma ords_ascii s : is_ascii s = true → Py.ords s = codes s.
Proof.
  intros Hs. unfold Py.ords. rewrite (chars_ascii s Hs).
  induction s as [|c s IH]; [done|].
  apply andb_true_iff in Hs as [Hc Hs].
  cbn [String.list_ascii_of_string codes]. rewrite !fmap_cons, (IH Hs).
  simpl. by rewrite Hc.
Qed.

Lemma pretty_N_char_digit x :
  (x < 10)%N →
  Py.decimal (N_of_ascii (pretty_N_char x)) = Some (Z.of_N x) ∧
  (N_of_ascii (pretty_N_char x) <? 128)%N = true ∧
  Py.int_space (N_of_ascii (pretty_N_char x)) = false ∧
  (N_of_ascii (pretty_N_char x) =? 45)%N = false ∧
  (N_of_ascii (pretty_N_char x) =? 43)%N = false ∧
  pretty_N_char x ≠ "013"%char.
Proof.
  intros Hx.
  assert (x = 0 ∨ x = 1 ∨ x = 2 ∨ x = 3 ∨ x = 4 ∨ x = 5 ∨ x = 6 ∨ x = 7
          ∨ x = 8 ∨ x = 9)%N as Hcases by lia.
  repeat (destruct Hcases as [->|Hcases]; [by vm_compute|]).
  subst. by vm_compute.
Qed.

Lemma pretty_N_go_spec x s :
  (0 < x)%N →
  (∀ b, Py.digits 0 b (codes (pretty_N_go x s)) =
        Py.digits (Z.of_N x) true (codes s)) ∧
  is_ascii (pretty_N_go x s) = is_ascii s ∧
  no_cr (pretty_N_go x s) = no_cr s ∧
  ∃ cp l, codes (pretty_N_go x s) = cp :: l ∧ Py.int_space cp = false ∧
          (cp =? 45)%N = false ∧ (cp =? 43)%N = false.
Proof.
  revert s. induction (N.lt_wf_0 x) as [x _ IH]. intros s Hx.
  rewrite pretty_N_go_step by done.
  destruct (pretty_N_char_digit (x `mod` 10)%N)
    as (Hd & Ha & Hsp & Hm & Hp & Hcr).
  { by apply N.mod_lt. }
  destruct (decide (x `div` 10 = 0)%N) as [Hz|Hnz].
  - rewrite Hz, pretty_N_go_0. split_and!.
    + intros b. simpl. rewrite Hd. f_equal.
      pose proof (N.div_mod' x 10) as H.
      rewrite Hz, N.mul_0_r, N.add_0_l in H. rewrite <-H. lia.
    + simpl. by rewrite Ha.
    + simpl. by rewrite bool_decide_false.
    + simpl. eauto 10.
  - destruct (IH (x `div` 10)%N) with (s := String (pretty_N_char (x `mod` 10)) s)
      as (Hdig & Hns & Hnocr & Hfirst).
    { apply N.div_lt; lia. }
    { by apply N.neq_0_lt_0. }
    split_and!.
    + intros b. rewrite Hdig. simpl. rewrite Hd. f_equal.
      pose proof (N.div_mod' x 10) as H. lia.
    + rewrite Hns. simpl. by rewrite Ha.
    + rewrite Hnocr. simpl. by rewrite bool_decide_false.
    + done.
Qed.

Lemma parse_int_pretty_N x : Py.parse_int (pretty x) = Some (Z.of_N x).
Proof.
  unfold pretty, pretty_N. case_decide as Hx; [by subst|].
  destruct (pretty_N_go_spec x "")
    as (Hdig & Ha & _ & cp & l & Hc & Hsp & Hm & Hp).
  { lia. }
  unfold Py.parse_int. rewrite ords_ascii by by rewrite Ha.
  rewrite Hc. cbn [Py.lstrip_int]. rewrite Hsp, Hm, Hp, <-Hc. by rewrite Hdig.
Qed.

Lemma is_ascii_str n : is_ascii (Py.str n) = true.
Proof.
  assert (∀ p, is_ascii (pretty (N.pos p)) = true) as Hpos.
  { intros p. unfold pretty, pretty_N. rewrite decide_False by done.
    destruct (pretty_N_go_spec (N.pos p) "") as (_ & -> & _); [lia | done]. }
  destruct n as [|p|p]; [done | apply Hpos |].
  change (Py.str (Z.neg p)) with (String "-" (pretty (N.pos p))).
  simpl. apply Hpos.
Qed.

(** [int(str(n)) == n] *)
Lemma int_str n : Py.int (Some (Py.str n)) = Py.Ok n.
Proof.
  unfold Py.int, Py.str.
  destruct n as [|p|p]; [done| |].
  - change (pretty (Z.pos p)) with (pretty (N.pos p)).
    by rewrite parse_int_pretty_N.
  - change (pretty (Z.neg p)) with (String "-" (pretty (N.pos p))).
    unfold Py.parse_int, pretty, pretty_N. rewrite decide_False by done.
    destruct (pretty_N_go_spec (N.pos p) "") as (Hdig & Ha & _); [lia|].
    rewrite ords_ascii by (simpl; by rewrite Ha).
    simpl. by rewrite Hdig.
Qed.

Lemma no_cr_str n : no_cr (Py.str n) = true.
Proof.
  assert (∀ p, no_cr (pretty (N.pos p)) = true) as Hpos.
  { intros p. unfold pretty, pretty_N. rewrite decide_False by done.
    destruct (pretty_N_go_spec (N.pos p) "") as (_ & _ & -> & _);
      [lia | done]. }
  destruct n as [|p|p]; [done | apply Hpos |].
  change (Py.str (Z.neg p)) with (String "-" (pretty (N.pos p))).
  simpl. apply Hpos.
Qed.

(** Universal newlines *)

Lemma universal_newlines_no_cr s : no_cr s = true → universal_newlines s = s.
Proof.
  induction s as [|c s IH]; [done|]. simpl.
  intros [Hc Hs]%andb_true_iff. apply negb_true_iff, bool_decide_eq_false in Hc.
  rewrite decide_False by done. by rewrite (IH Hs).
Qed.

Lemma no_cr_universal_newlines_aux s :
  no_cr (universal_newlines s) = true ∧
  ∀ c, no_cr (universal_newlines (String c s)) = true.
Proof.
  induction s as [|c' s [IH1 IH2]].
  { split; [done|]. intros c. simpl. by case_decide; simpl; [|rewrite bool_decide_false]. }
  split; [apply IH2|].
  intros c. cbn [universal_newlines]. destruct (decide (c = "013"%char)).
  - cbn [no_cr]. rewrite bool_decide_false by done. simpl.
    destruct (decide (c' = "010"%char)); [done | apply IH2].
  - cbn [no_cr]. rewrite bool_decide_false by done. simpl. apply IH2.
Qed.

Lemma no_cr_universal_newlines s : no_cr (universal_newlines s) = true.
Proof. apply no_cr_universal_newlines_aux. Qed.

Lemma universal_newlines_idemp s :
  universal_newlines (universal_newlines s) = universal_newlines s.
Proof. apply universal_newlines_no_cr, no_cr_universal_newlines. Qed.

Lemma universal_newlines_str n : universal_newlines (Py.str n) = Py.str n.
Proof. apply universal_newlines_no_cr, no_cr_str. Qed.

Lemma no_cr_app s1 s2 : no_cr (s1 +:+ s2) = no_cr s1 && no_cr s2.
Proof.
  induction s1 as [|c s1 IH]; [done|]. simpl. rewrite IH.
  by destruct (bool_decide (c = "013"%char)).
Qed.

Lemma no_cr_join (l : list string) :
  no_cr (Py.join l) = true ↔ Forall (λ char, no_cr char = true) l.
Proof.
  induction l as [|char l IH]; simpl.
  - split; [constructor | done].
  - rewrite no_cr_app, andb_true_iff, IH, Forall_cons. tauto.
Qed.

(** [strip] brings no CR into a text. *)
Lemma no_cr_strip s : no_cr s = true → no_cr (Py.strip s) = true.
Proof.
  rewrite <-(join_chars s) at 1. rewrite no_cr_join. intros Hs.
  unfold Py.strip, Py.rstrip_chars. apply no_cr_join.
  by apply Forall_reverse, lstrip_chars_Forall, Forall_reverse,
    lstrip_chars_Forall.
Qed.

Lemma writerow_as_read (r : row) :
  Forall (λ c : string, no_cr c = true) r → writerow r = r.
Proof.
  unfold writerow. induction 1 as [|c r Hc _ IH]; [done|].
  by rewrite fmap_cons, IH, universal_newlines_no_cr.
Qed.

Lemma writerow_rows_as_read (rows : list row) :
  as_read rows → writerow <$> rows = rows.
Proof.
  induction 1 as [|r rows Hr _ IH]; [done|].
  by rewrite fmap_cons, IH, writerow_as_read.
Qed.

Lemma writerow_HEADER : writerow HEADER = HEADER.
Proof. reflexivity. Qed.

Lemma writerow_length (r : row) : length (writerow r) = length r.
Proof. apply length_fmap. Qed.

(** ** The store: initialisation and the missing file *)

Lemma initialize_csv_existing (fs : filesystem) user_id :
  is_Some (fs !! user_file user_id) → initialize_csv fs user_id = fs.
Proof. intros [f Hf]. unfold initialize_csv. by rewrite Hf. Qed.

Lemma initialize_csv_other (fs : filesystem) user_id path :
  path ≠ user_file user_id → initialize_csv fs user_id !! path = fs !! path.
Proof.
  intros Hne. unfold initialize_csv.
  destruct (fs !! user_file user_id); [done|]. by rewrite lookup_insert_ne.
Qed.

(** *** The directory of a user's file *)

Lemma plain_app s1 s2 : plain (s1 +:+ s2) = plain s1 && plain s2.
Proof.
  induction s1 as [|c s1 IH]; [done|]. simpl. rewrite IH.
  by destruct (bool_decide (c = "/"%char)).
Qed.

Lemma path_head_plain s : plain s = true → path_head s = None.
Proof.
  induction s as [|c s IH]; [done|]. simpl.
  intros [Hc Hs]%andb_true_iff. rewrite (IH Hs).
  apply negb_true_iff, bool_decide_eq_false in Hc. by rewrite decide_False.
Qed.

Lemma path_head_sep dir name :
  path_head name = None →
  path_head (dir +:+ String "/" name) = Some (dir +:+ "/").
Proof.
  intros Hname. induction dir as [|c dir IH].
  - change (path_head (String "/" name) = Some "/"). simpl.
    by rewrite Hname.
  - change (path_head (String c (dir +:+ String "/" name)) =
            Some (String c (dir +:+ "/"))).
    simpl. by rewrite IH.
Qed.

(** The file of a user id without a separator lies in [USER_DATA_DIR]. *)
Lemma user_file_plain user_id :
  plain user_id = true →
  user_file user_id = USER_DATA_DIR +:+ "/" +:+ (user_id +:+ "_data.csv").
Proof.
  intros Hplain. unfold user_file.
  destruct user_id as [|c user_id]; [done|].
  apply andb_true_iff in Hplain as [Hc _].
  apply negb_true_iff, bool_decide_eq_false in Hc.
  change (String c user_id +:+ "_data.csv")
    with (String c (user_id +:+ "_data.csv")).
  change (String.prefix "/" (String c (user_id +:+ "_data.csv")))
    with (if ascii_dec "/" c
          then String.prefix "" (user_id +:+ "_data.csv") else false).
  by destruct (ascii_dec "/" c) as [<-|].
Qed.

Lemma dirname_user_file user_id :
  plain user_id = true → dirname (user_file user_id) = USER_DATA_DIR.
Proof.
  intros Hplain. rewrite (user_file_plain user_id Hplain).
  change (USER_DATA_DIR +:+ "/" +:+ (user_id +:+ "_data.csv"))
    with (USER_DATA_DIR +:+ String "/" (user_id +:+ "_data.csv")).
  unfold dirname. rewrite path_head_sep; [done|].
  apply path_head_plain. by rewrite plain_app, Hplain.
Qed.

Lemma user_file_not_directory user_id : user_file user_id ≠ USER_DATA_DIR.
Proof.
  unfold user_file.
  destruct (String.prefix "/" (user_id +:+ "_data.csv")) eqn:Hprefix.
  - intros Heq. by rewrite Heq in Hprefix.
  - done.
Qed.

Lemma directory_ready_plain (d : disk) user_id :
  plain user_id = true → directory_ready d (user_file user_id).
Proof. intros Hplain. right. left. by apply dirname_user_file. Qed.

Lemma exists_false (d : disk) path :
  exists_ d path = false ↔ files d !! path = None ∧ path ∉ dirs d.
Proof.
  unfold exists_. rewrite orb_false_iff, !bool_decide_eq_false.
  by rewrite <-eq_None_not_Some.
Qed.

(** A store that exists is left as it is, whatever the user id. *)
Lemma initialize_csv_on_existing (d : disk) user_id :
  exists_ d (user_file user_id) = true →
  initialize_csv_on d user_id = (d, Py.Ok ()).
Proof. intros Hex. unfold initialize_csv_on. by rewrite Hex. Qed.

(** A user id that has no file yet, where the directory of its file is
    there once [USER_DATA_DIR] is: that directory is made where it is
    missing, and the file is made. *)
Lemma initialize_csv_on_fresh (d : disk) user_id :
  directory_ready d (user_file user_id) →
  USER_DATA_DIR ∈ dirs d ∨ files d !! USER_DATA_DIR = None →
  exists_ d (user_file user_id) = false →
  initialize_csv_on d user_id =
  (Disk ({[USER_DATA_DIR]} ∪ dirs d)
        (<[user_file user_id := [HEADER]]> (files d)),
   Py.Ok ()).
Proof.
  intros Hready Hdir Hfresh. unfold initialize_csv_on. rewrite Hfresh.
  apply exists_false in Hfresh as [_ Hnodir].
  pose proof (user_file_not_directory user_id) as Hne.
  unfold makedirs. case_bool_decide as Hin.
  - unfold open_w. rewrite bool_decide_false by done.
    rewrite bool_decide_true.
    2:{ destruct Hready as [?|[Heq|?]]; [by left | right | by right].
        by rewrite Heq. }
    by rewrite (subseteq_union_1_L {[USER_DATA_DIR]} (dirs d))
      by by apply singleton_subseteq_l.
  - destruct Hdir as [?|Hnofile]; [done|].
    rewrite bool_decide_false by (rewrite Hnofile; by intros [? ?]).
    unfold open_w. simpl.
    rewrite bool_decide_false
      by (rewrite elem_of_union, elem_of_singleton; tauto).
    rewrite bool_decide_true; [done|].
    rewrite elem_of_union, elem_of_singleton. tauto.
Qed.

(** For a user id without a separator the files are those that
    [initialize_csv] leaves, which has no directories. *)
Lemma initialize_csv_on_files (d : disk) user_id :
  plain user_id = true →
  USER_DATA_DIR ∈ dirs d ∨ files d !! USER_DATA_DIR = None →
  user_file user_id ∉ dirs d →
  ∃ d', initialize_csv_on d user_id = (d', Py.Ok ()) ∧
        files d' = initialize_csv (files d) user_id ∧
        user_file user_id ∉ dirs d'.
Proof.
  intros Hplain Hdir Hnodir. unfold initialize_csv.
  destruct (files d !! user_file user_id) as [f|] eqn:Hf.
  - exists d. split; [|split; [reflexivity | exact Hnodir]].
    apply initialize_csv_on_existing.
    unfold exists_. by rewrite bool_decide_true by (rewrite Hf; eauto).
  - eexists. split.
    { apply initialize_csv_on_fresh;
        [by apply directory_ready_plain | done |]. by apply exists_false. }
    split; [done|].
    pose proof (user_file_not_directory user_id). simpl.
    rewrite elem_of_union, elem_of_singleton. tauto.
Qed.

(** C7, as the code has it: a store that exists is left as it is by
    [initialize_csv], whatever the user id; and for a user id that has
    no store yet and whose file lies in [USER_DATA_DIR] or in a directory
    that exists, as it does for every user id without a separator,
    [initialize_csv] raises nothing where no file is in the way of
    [USER_DATA_DIR], makes the file with the column header and no record,
    touches no other file, and called again changes nothing. *)
Theorem initialize_csv_on_idempotent (d : disk) user_id :
  (exists_ d (user_file user_id) = true →
   initialize_csv_on d user_id = (d, Py.Ok ())) ∧
  (exists_ d (user_file user_id) = false →
   directory_ready d (user_file user_id) →
   USER_DATA_DIR ∈ dirs d ∨ files d !! USER_DATA_DIR = None →
   ∃ d1,
     initialize_csv_on d user_id = (d1, Py.Ok ()) ∧
     files d1 !! user_file user_id = Some [HEADER] ∧
     read_all_activities (files d1) user_id = ([], []) ∧
     (∀ path, path ≠ user_file user_id → files d1 !! path = files d !! path) ∧
     initialize_csv_on d1 user_id = (d1, Py.Ok ())) ∧
  (plain user_id = true → directory_ready d (user_file user_id)).
Proof.
  split; [apply initialize_csv_on_existing|].
  split; [|apply directory_ready_plain].
  intros Hfresh Hready Hdir. eexists.
  split; [by apply initialize_csv_on_fresh|]. simpl.
  assert (<[user_file user_id := [HEADER]]> (files d) !! user_file user_id =
          Some [HEADER]) as H1 by apply lookup_insert_eq.
  split_and!.
  - done.
  - unfold read_all_activities. by rewrite H1.
  - intros path Hne. by rewrite lookup_insert_ne.
  - apply initialize_csv_on_existing. unfold exists_. simpl.
    by rewrite bool_decide_true by (rewrite H1; eauto).
Qed.

Lemma initialize_csv_on_idempotent_witness :
  let d := Disk ∅ ∅ in
  let d1 := Disk {[USER_DATA_DIR]} {[ user_file "bob" := [HEADER] ]} in
  initialize_csv_on d "bob" = (d1, Py.Ok ()) ∧
  initialize_csv_on d1 "bob" = (d1, Py.Ok ()) ∧
  ∃ d1',
    initialize_csv_on d "bob" = (d1', Py.Ok ()) ∧
    files d1' !! user_file "bob" = Some [HEADER] ∧
    read_all_activities (files d1') "bob" = ([], []) ∧
    (∀ path, path ≠ user_file "bob" → files d1' !! path = files d !! path) ∧
    initialize_csv_on d1' "bob" = (d1', Py.Ok ()).
Proof.
  intros d d1. split; [by vm_compute|].
  split; [apply (initialize_csv_on_idempotent d1 "bob"); by vm_compute|].
  apply (initialize_csv_on_idempotent d "bob"); [by vm_compute | | by right].
  by apply (initialize_csv_on_idempotent d "bob").
Defined.

(** C7 as the claim has it, for every fresh user id, fails on one with a
    directory part: only [USER_DATA_DIR] is made, so the opening of the
    file raises and no store is created, and so again on every further
    call. *)
Lemma initialize_csv_directory_part :
  let d := Disk ∅ ∅ in
  let d1 := Disk {[USER_DATA_DIR]} ∅ in
  user_file "a/b" = "user_data/a/b_data.csv" ∧
  exists_ d (user_file "a/b") = false ∧
  initialize_csv_on d "a/b" = (d1, Py.Raise Py.FileNotFoundError) ∧
  files d1 !! user_file "a/b" = None ∧
  initialize_csv_on d1 "a/b" = (d1, Py.Raise Py.FileNotFoundError).
Proof. by vm_compute. Qed.

(** C8: when the user's file is missing, [read_all_activities] returns no
    activity and shows one warning, and [read_activities_for_today]
    returns no activity and shows nothing; neither raises. *)
Theorem missing_store_reads (fs : filesystem) user_id today :
  fs !! user_file user_id = None →
  read_all_activities fs user_id =
    ([], [warning "File Not Found"
            "No data file found. A new one will be created."]) ∧
  read_activities_for_today fs user_id today = Py.Ok [].
Proof.
  intros Hmissing. unfold read_all_activities, read_activities_for_today.
  by rewrite Hmissing.
Qed.

Lemma missing_store_reads_witness :
  read_all_activities ∅ "bob" =
    ([], [warning "File Not Found"
            "No data file found. A new one will be created."]) ∧
  read_activities_for_today ∅ "bob" "2024-05-02" = Py.Ok [].
Proof. apply (missing_store_reads ∅ "bob" "2024-05-02"). reflexivity. Defined.

(** ** Submitting an activity *)

(** C10: submitting an activity whose name is empty or all white space
    leaves the whole state, the files included, as it was and raises
    nothing. *)
Theorem add_activity_blank self category text duration today :
  Py.blank text = true →
  add_activity self category text duration today = (self, Py.Ok ()).
Proof.
  intros Hblank%strip_empty_iff. unfold add_activity. rewrite Hblank.
  by case_decide.
Qed.

Lemma add_activity_blank_witness :
  let self := App {[ user_file "bob" := [HEADER] ]} "bob" 60 in
  let nbsp := String "194" (String "160" "") in
  let ideographic := String "227" (String "128" (String "128" "")) in
  add_activity self "Work" "   " 5 "2024-05-02" = (self, Py.Ok ()) ∧
  add_activity self "Work" "" 5 "2024-05-02" = (self, Py.Ok ()) ∧
  add_activity self "Work" (" " +:+ nbsp +:+ ideographic) 5 "2024-05-02" =
    (self, Py.Ok ()).
Proof.
  intros self nbsp ideographic. split_and!.
  - apply (add_activity_blank _ "Work" "   " 5 "2024-05-02"). reflexivity.
  - apply (add_activity_blank _ "Work" "" 5 "2024-05-02"). reflexivity.
  - apply (add_activity_blank _ "Work" _ 5 "2024-05-02"). reflexivity.
Defined.

(** ** What [DictReader] makes of a row *)

Section dict_of_row.
Implicit Types (d : gmap string Py.value) (k : string).

Lemma zipped_lookup_None d (l : list (string * string)) k :
  foldl (λ d kv, <[kv.1 := Some kv.2]> d) d l !! k = None ↔
  d !! k = None ∧ k ∉ l.*1.
Proof.
  revert d. induction l as [|[k' v] l IH]; intros d; simpl.
  - rewrite elem_of_nil. tauto.
  - rewrite IH, elem_of_cons, lookup_insert_None. intuition congruence.
Qed.

Lemma restval_lookup_None d (l : list string) k :
  foldl (λ d key, <[key := None]> d) d l !! k = None ↔
  d !! k = None ∧ k ∉ l.
Proof.
  revert d. induction l as [|k' l IH]; intros d; simpl.
  - rewrite elem_of_nil. tauto.
  - rewrite IH, elem_of_cons, lookup_insert_None. intuition congruence.
Qed.

Lemma fst_zip_take (l : list string) (r : list string) :
  (zip l r).*1 = take (length r) l.
Proof.
  revert r. induction l as [|x l IH]; intros [|y r]; simpl; [done..|].
  by rewrite IH.
Qed.

(** The keys of the dict are the field names, however long the row. *)
Lemma dict_of_row_lookup_None fieldnames r k :
  fields (dict_of_row fieldnames r) !! k = None ↔ k ∉ fieldnames.
Proof.
  unfold dict_of_row. case_decide as Hlen; simpl.
  - rewrite zipped_lookup_None, lookup_empty, fst_zip by lia. tauto.
  - rewrite restval_lookup_None, zipped_lookup_None, lookup_empty.
    rewrite fst_zip_take.
    rewrite <-(take_drop (length r) fieldnames) at 3.
    rewrite elem_of_app. tauto.
Qed.

Lemma dict_of_row_lookup_is_Some fieldnames r k :
  k ∈ fieldnames → is_Some (fields (dict_of_row fieldnames r) !! k).
Proof.
  intros Hk. apply not_eq_None_Some. rewrite dict_of_row_lookup_None. tauto.
Qed.

(** A row of four cells under the column header. *)
Lemma dict_of_row_HEADER date category activity time :
  dict_of_row HEADER [date; category; activity; time] =
  record date category activity time.
Proof. reflexivity. Qed.

Lemma setdefault_record date category activity time :
  setdefault (record date category activity time) "Category" "Other" =
  record date category activity time.
Proof. reflexivity. Qed.

Lemma row_of_record date category activity time :
  row_of (record date category activity time) =
  Py.Ok (writerow [date; category; activity; time]).
Proof. reflexivity. Qed.

End dict_of_row.

(** ** Reading today's activities *)

Lemma dated_setdefault today row :
  dated today (setdefault row "Category" "Other") ↔ dated today row.
Proof.
  unfold dated, setdefault. destruct (fields row !! "Category"); [done|].
  simpl. by rewrite lookup_insert_ne.
Qed.

Lemma filter_dated_setdefault today (rows : list dict) :
  filter (dated today) ((λ row, setdefault row "Category" "Other") <$> rows) =
  (λ row, setdefault row "Category" "Other") <$> filter (dated today) rows.
Proof.
  induction rows as [|row rows IH]; [done|]. rewrite fmap_cons.
  rewrite !filter_cons, IH.
  destruct (decide (dated today row)) as [Hd|Hd];
    rewrite <-dated_setdefault in Hd; by case_decide.
Qed.

(** Where every row has a date, the loop is a filter. *)
Lemma rows_for_today_filter today (rows : list dict) :
  Forall (λ row, is_Some (fields row !! "Date")) rows →
  rows_for_today today rows =
  Py.Ok ((λ row, setdefault row "Category" "Other") <$>
           filter (dated today) rows).
Proof.
  induction 1 as [|row rows [date Hdate] _ IH]; [done|].
  simpl. unfold getitem. rewrite Hdate. simpl. rewrite IH, filter_cons.
  destruct (decide (date = Some today)) as [->|Hne].
  - by rewrite decide_True.
  - rewrite decide_False; [done|]. unfold dated. congruence.
Qed.

Lemma DictReader_dates (f : file) :
  (∀ fieldnames rows, f = fieldnames :: rows → "Date" ∈ fieldnames) →
  Forall (λ row, is_Some (fields row !! "Date")) (DictReader f).
Proof.
  destruct f as [|fieldnames rows]; intros Hdate; [constructor|].
  simpl. apply Forall_fmap, Forall_forall. intros r _. simpl.
  apply dict_of_row_lookup_is_Some. eauto.
Qed.

Lemma read_today_filter (fs : filesystem) user_id today :
  (∀ fieldnames rows,
     fs !! user_file user_id = Some (fieldnames :: rows) →
     "Date" ∈ fieldnames) →
  read_activities_for_today fs user_id today =
  Py.Ok (filter (dated today) (read_all_activities fs user_id).1).
Proof.
  intros Hdate. unfold read_activities_for_today, read_all_activities.
  destruct (fs !! user_file user_id) as [f|] eqn:Hf; [|done]. simpl.
  rewrite filter_dated_setdefault. apply rows_for_today_filter.
  apply DictReader_dates. intros ?? ->. eauto.
Qed.

(** C3: on a store whose file has the date column (or is missing or
    empty), [read_activities_for_today] returns exactly the activities of
    [read_all_activities] whose date is today's, in the same order; so
    they form a sublist. *)
Theorem read_today_subsequence (fs : filesystem) user_id today :
  (∀ fieldnames rows,
     fs !! user_file user_id = Some (fieldnames :: rows) →
     "Date" ∈ fieldnames) →
  ∃ activities,
    read_activities_for_today fs user_id today = Py.Ok activities ∧
    activities = filter (dated today) (read_all_activities fs user_id).1 ∧
    activities `sublist_of` (read_all_activities fs user_id).1.
Proof.
  intros Hdate. eexists. split; [by apply read_today_filter|].
  split; [done|]. apply sublist_filter.
Qed.

Lemma read_today_subsequence_witness :
  let fs : filesystem :=
    {[ user_file "bob" :=
         [HEADER; ["2024-05-01"; "Work"; "Report"; "10"];
          ["2024-05-02"; "Work"; "Email"; "30"]] ]} in
  ∃ activities,
    read_activities_for_today fs "bob" "2024-05-02" = Py.Ok activities ∧
    activities =
      filter (dated "2024-05-02") (read_all_activities fs "bob").1 ∧
    activities `sublist_of` (read_all_activities fs "bob").1.
Proof.
  apply (read_today_subsequence _ "bob" "2024-05-02").
  intros fieldnames rows H. vm_compute in H. injection H as <- _.
  apply list_elem_of_here.
Defined.

(** X5: without a date column the first row that is not empty makes the
    reading of today's activities raise. *)
Lemma read_today_no_date_column (fs : filesystem) user_id today fieldnames r rows :
  fs !! user_file user_id = Some (fieldnames :: r :: rows) →
  "Date" ∉ fieldnames → r ≠ [] →
  read_activities_for_today fs user_id today = Py.Raise (Py.KeyError "Date").
Proof.
  intros Hf Hdate Hr. unfold read_activities_for_today. rewrite Hf. simpl.
  rewrite filter_cons, decide_True by done. simpl. unfold getitem.
  by rewrite (proj2 (dict_of_row_lookup_None fieldnames r "Date") Hdate).
Qed.

(** ** Appending *)

Lemma named_strip s : named s ↔ Py.strip (sub_text s) ≠ "".
Proof.
  unfold named. rewrite strip_empty_iff. by destruct (Py.blank (sub_text s)).
Qed.

Lemma add_activity_user_id self category text duration today :
  user_id (add_activity self category text duration today).1 = user_id self.
Proof. unfold add_activity. by case_decide. Qed.

Lemma submit_all_user_id self subs :
  user_id (submit_all self subs) = user_id self.
Proof.
  revert self. induction subs as [|s subs IH]; intros self; [done|].
  simpl. unfold submit_all in IH. by rewrite IH, add_activity_user_id.
Qed.

(** The file after a sequence of submissions: one more row for each
    submission that has a name, in order. *)
Lemma submit_all_file self subs (f : file) :
  fs self !! user_file (user_id self) = Some f →
  fs (submit_all self subs) !! user_file (user_id self) =
  Some (f ++ (row_of_submission <$> filter named subs))%list.
Proof.
  revert self f. induction subs as [|s subs IH]; intros self f Hf.
  { simpl. by rewrite app_nil_r. }
  rewrite filter_cons. unfold submit_all. simpl.
  set (self' := (add_activity self _ _ _ _).1).
  assert (user_id self' = user_id self) as Hu by apply add_activity_user_id.
  rewrite <-Hu. unfold submit_all in IH.
  destruct (decide (named s)) as [Hs|Hs].
  - rewrite (IH self' (f ++ [row_of_submission s])%list).
    + by rewrite fmap_cons, <-app_assoc.
    + subst self'. unfold add_activity. apply named_strip in Hs.
      rewrite decide_True by done. simpl. rewrite Hf. apply lookup_insert_eq.
  - rewrite (IH self' f); [done|].
    subst self'. unfold add_activity. rewrite named_strip in Hs.
    rewrite decide_False by done. done.
Qed.

Lemma read_rows_of_submissions (subs : list submission) :
  (λ row, setdefault row "Category" "Other") <$>
    (dict_of_row HEADER <$>
       filter (λ r : row, r ≠ []) (row_of_submission <$> subs)) =
  record_of <$> subs.
Proof.
  induction subs as [|s subs IH]; [done|].
  rewrite fmap_cons, filter_cons, decide_True by done.
  rewrite !fmap_cons, IH. f_equal.
  unfold row_of_submission, writerow, record_of. rewrite !fmap_cons.
  by rewrite dict_of_row_HEADER, setdefault_record, universal_newlines_str.
Qed.

(** Reading after submissions: what was there, then the new records. *)
Lemma read_all_submit_all self subs rows :
  fs self !! user_file (user_id self) = Some (HEADER :: rows) →
  read_all_activities (fs (submit_all self subs)) (user_id self) =
  (((read_all_activities (fs self) (user_id self)).1 ++
     (record_of <$> filter named subs))%list, []).
Proof.
  intros Hf. unfold read_all_activities.
  rewrite (submit_all_file self subs _ Hf), Hf. simpl.
  by rewrite filter_app, !fmap_app, read_rows_of_submissions.
Qed.

(** After any sequence of submissions to a freshly initialised store,
    [read_all_activities] returns the records of the submissions that had
    a name, in the order they were made, each as it is read back, and
    shows no message. *)
Lemma read_all_after_appends (fs0 : filesystem) user_id goal subs :
  fs0 !! user_file user_id = None →
  read_all_activities
    (fs (submit_all (App (initialize_csv fs0 user_id) user_id goal) subs))
    user_id =
  (record_of <$> filter named subs, []).
Proof.
  intros Hfresh.
  set (self := App (initialize_csv fs0 user_id) user_id goal).
  assert (fs self !! user_file (AccumulativeHourApp.user_id self) = Some [HEADER]) as Hf.
  { simpl. unfold initialize_csv. rewrite Hfresh. apply lookup_insert_eq. }
  rewrite (read_all_submit_all self subs [] Hf : read_all_activities _ user_id = _).
  unfold read_all_activities. by rewrite Hf.
Qed.

(** A submission without CR in its texts is read back as it was
    submitted. *)
Lemma record_of_submitted s :
  no_cr (sub_today s) = true →
  no_cr (sub_category s) = true →
  no_cr (sub_text s) = true →
  record_of s = submitted s.
Proof.
  intros Htoday Hcategory Htext. unfold record_of, submitted.
  rewrite (universal_newlines_no_cr _ Htoday).
  rewrite (universal_newlines_no_cr _ Hcategory).
  by rewrite (universal_newlines_no_cr _ (no_cr_strip _ Htext)).
Qed.

(** So the records of submissions without CR come back exactly, in
    order, none lost and none twice. *)
Lemma read_all_after_appends_no_cr (fs0 : filesystem) user_id goal subs :
  fs0 !! user_file user_id = None →
  Forall (λ s, no_cr (sub_today s) = true ∧ no_cr (sub_category s) = true ∧
               no_cr (sub_text s) = true) subs →
  read_all_activities
    (fs (submit_all (App (initialize_csv fs0 user_id) user_id goal) subs))
    user_id =
  (submitted <$> filter named subs, []).
Proof.
  intros Hfresh Hsubs. rewrite read_all_after_appends by done. f_equal.
  induction Hsubs as [|s subs (? & ? & ?) _ IH]; [done|].
  rewrite filter_cons. case_decide; [|done].
  by rewrite !fmap_cons, IH, record_of_submitted.
Qed.

Example read_all_after_appends_ex :
  let subs :=
    [Submission "Work" " Email " 30 "2024-05-02";
     Submission "Work" "   " 5 "2024-05-02";
     Submission "Work" "Call" 40 "2024-05-02"] in
  read_all_activities
    (fs (submit_all (App (initialize_csv ∅ "bob") "bob" 60) subs)) "bob" =
  ([record "2024-05-02" "Work" "Email" "30";
    record "2024-05-02" "Work" "Call" "40"], []).
Proof. intros subs. by rewrite read_all_after_appends. Qed.

(** C2, at two submissions with a CR in the name: both are appended, and
    [read_all_activities] returns them in order, but with LF where the
    name had CR or CRLF, which are not the records that were appended.
    The files are written with [newline=""] and read without it. *)
Theorem append_cr_read_back :
  let cr := String "a" (String "013" "b") in
  let crlf := String "a" (String "013" (String "010" "b")) in
  let lf := String "a" (String "010" "b") in
  let subs :=
    [Submission "Work" cr 30 "2024-05-02";
     Submission "Work" crlf 40 "2024-05-02"] in
  let self := submit_all (App (initialize_csv ∅ "bob") "bob" 60) subs in
  Forall named subs ∧
  submitted <$> subs =
    [record "2024-05-02" "Work" cr "30";
     record "2024-05-02" "Work" crlf "40"] ∧
  read_all_activities (fs self) "bob" =
    ([record "2024-05-02" "Work" lf "30";
      record "2024-05-02" "Work" lf "40"], []) ∧
  (read_all_activities (fs self) "bob").1 ≠ submitted <$> subs.
Proof.
  intros cr crlf lf subs self. split_and!.
  - apply Forall_cons_2; [reflexivity|].
    apply Forall_cons_2; [reflexivity|]. apply Forall_nil_2.
  - reflexivity.
  - subst self. by rewrite read_all_after_appends.
  - intros H.
    apply (f_equal (fmap (M := list) (λ a, getitem a "Activity"))) in H.
    vm_compute in H. discriminate H.
Qed.

(** ** Writing back what was read *)

Lemma row_of_cells activity r : row_of activity = Py.Ok r → length r = 4%nat.
Proof.
  unfold row_of.
  destruct (getitem activity "Date"); simpl; [|done].
  destruct (getitem activity "Category"); simpl; [|done].
  destruct (getitem activity "Activity"); simpl; [|done].
  destruct (getitem activity "TimeSpent"); simpl; [|done].
  by intros [= <-].
Qed.

Lemma row_of_writable (activity : dict) :
  writable activity →
  ∃ r, row_of activity = Py.Ok r ∧
       setdefault (dict_of_row HEADER r) "Category" "Other" =
       normalise activity.
Proof.
  intros ([d Hd] & [c Hc] & [n Hn] & [t Ht]).
  unfold row_of, getitem, normalise. rewrite Hd, Hc, Hn, Ht. simpl.
  eexists. split; [done|]. by rewrite dict_of_row_HEADER, setdefault_record.
Qed.

Lemma written_writable (activities : list dict) :
  Forall writable activities →
  ∃ rows,
    written activities = (rows, Py.Ok ()) ∧
    (λ row, setdefault row "Category" "Other") <$>
      (dict_of_row HEADER <$> filter (λ r : row, r ≠ []) rows) =
    normalise <$> activities.
Proof.
  induction 1 as [|a activities Ha _ (rows & Hrows & Hread)].
  { by exists []. }
  destruct (row_of_writable a Ha) as (r & Hr & Hnorm).
  exists (r :: rows). simpl. rewrite Hr, Hrows. split; [done|].
  assert (r ≠ []) as Hne.
  { apply row_of_cells in Hr. by destruct r. }
  rewrite filter_cons, decide_True by done.
  by rewrite !fmap_cons, Hnorm, Hread.
Qed.

Lemma four_cells (r : row) :
  length r = 4%nat → ∃ a b c d, r = [a; b; c; d].
Proof.
  destruct r as [|a [|b [|c [|d [|? ?]]]]]; try discriminate. eauto.
Qed.

Lemma written_read (rows : list row) :
  Forall (λ r : row, length r = 4%nat) rows →
  written ((λ row, setdefault row "Category" "Other") <$>
             (dict_of_row HEADER <$> filter (λ r : row, r ≠ []) rows)) =
  (writerow <$> rows, Py.Ok ()).
Proof.
  induction 1 as [|r rows (a & b & c & d & ->)%four_cells _ IH]; [done|].
  rewrite filter_cons, decide_True by done. rewrite !fmap_cons.
  rewrite dict_of_row_HEADER, setdefault_record.
  cbn [written]. rewrite row_of_record. by rewrite IH.
Qed.

(** Writing back what was read, on a well-formed store: the rows are
    written again, cell by cell. *)
Lemma write_read_well_formed (fs : filesystem) user_id rows :
  fs !! user_file user_id = Some (HEADER :: rows) →
  Forall (λ r : row, length r = 4%nat) rows →
  write_activities (read_all_activities fs user_id).1 fs user_id =
  (<[user_file user_id := HEADER :: (writerow <$> rows)]> fs, Py.Ok ()).
Proof.
  intros Hf Hrows. unfold write_activities, read_all_activities.
  rewrite Hf. simpl. by rewrite (written_read rows Hrows).
Qed.







(** ** The statistics *)

Lemma times_on_date_has_date activity a (rest : list dict) ts :
  times_on_date activity (a :: rest) = Py.Ok ts →
  ∃ d, getitem activity "Date" = Py.Ok d.
Proof.
  simpl. destruct (getitem a "Date"); simpl; [|done].
  destruct (getitem activity "Date"); simpl; [eauto | done].
Qed.

(** Raising the goal can only remove dates from the comprehension, and
    does not change whether, or what, it raises. *)
Lemma goal_dates_antitone g1 g2 (all activities : list dict) :
  g1 ≤ g2 →
  activities = [] ∨ all ≠ [] →
  match goal_dates g1 all activities, goal_dates g2 all activities with
  | Py.Ok ds1, Py.Ok ds2 => ds2 ⊆ ds1
  | Py.Raise e1, Py.Raise e2 => e1 = e2
  | _, _ => False
  end.
Proof.
  intros Hle Hall. induction activities as [|activity rest IH].
  { apply list_subseteq_nil. }
  destruct Hall as [|Hall]; [done|]. specialize (IH (or_intror Hall)).
  simpl. destruct (times_on_date activity all) as [ts|e] eqn:Hts; [|done].
  destruct all as [|a all']; [done|].
  apply times_on_date_has_date in Hts as [d ->]. simpl.
  destruct (goal_dates g1 (a :: all') rest) as [ds1|e1],
    (goal_dates g2 (a :: all') rest) as [ds2|e2]; try done;
    repeat case_decide; simpl; try done; try lia.
  - by apply list_subseteq_skip.
  - by apply list_subseteq_cons.
Qed.

Lemma distinct_mono (l1 l2 : list Py.value) :
  l1 ⊆ l2 → (distinct l1 ≤ distinct l2)%nat.
Proof.
  intros Hsub. unfold distinct. apply subseteq_size.
  intros x. rewrite !elem_of_list_to_set. apply Hsub.
Qed.

(** C5: for a fixed list of records and goals [g1 ≤ g2], the number of
    days that meet the goal [g2] is at most the number that meet [g1];
    and where the count raises (a record without date or with a time that
    is no integer), it raises the same for both goals. *)
Theorem days_completed_goal_antitone (activities : list dict) g1 g2 :
  g1 ≤ g2 →
  match days_completed_goal activities g1,
        days_completed_goal activities g2 with
  | Py.Ok n1, Py.Ok n2 => (n2 ≤ n1)%nat
  | Py.Raise e1, Py.Raise e2 => e1 = e2
  | _, _ => False
  end.
Proof.
  intros Hle. unfold days_completed_goal.
  assert (activities = [] ∨ activities ≠ []) as Hall
    by (destruct activities; auto).
  pose proof (goal_dates_antitone g1 g2 activities activities Hle Hall) as H.
  destruct (goal_dates g1 activities activities),
    (goal_dates g2 activities activities); simpl; try done.
  by apply distinct_mono.
Qed.

Lemma days_completed_goal_antitone_witness :
  let activities :=
    [record "2024-05-01" "Work" "Report" "45";
     record "2024-05-02" "Work" "Email" "30";
     record "2024-05-02" "Work" "Call" "40"] in
  days_completed_goal activities 40 = Py.Ok 2%nat ∧
  days_completed_goal activities 60 = Py.Ok 1%nat ∧
  match days_completed_goal activities 40,
        days_completed_goal activities 60 with
  | Py.Ok n1, Py.Ok n2 => (n2 ≤ n1)%nat
  | Py.Raise e1, Py.Raise e2 => e1 = e2
  | _, _ => False
  end.
Proof.
  intros activities. split; [reflexivity|]. split; [reflexivity|].
  apply (days_completed_goal_antitone activities 40 60). lia.
Defined.

Lemma total_time_nil : total_time [] = Py.Ok 0.
Proof. reflexivity. Qed.

Lemma remaining_time_nonneg goal total : 0 ≤ remaining_time goal total.
Proof. unfold remaining_time. lia. Qed.

(** The times the application writes are read back as the integers they
    were. *)
Lemma time_spent_record d c n t :
  time_spent (record d c n (Py.str t)) = Py.Ok t.
Proof.
  unfold time_spent, getitem, record. simpl. rewrite lookup_insert_eq. simpl.
  apply int_str.
Qed.

Lemma total_time_records (subs : list submission) :
  total_time (record_of <$> subs) = Py.Ok (Py.sum (sub_duration <$> subs)).
Proof.
  unfold total_time.
  assert (Py.traverse time_spent (record_of <$> subs) =
          Py.Ok (sub_duration <$> subs)) as ->; [|done].
  induction subs as [|s subs IH]; [done|].
  rewrite !fmap_cons. cbn [Py.traverse].
  rewrite IH. unfold record_of. by rewrite time_spent_record.
Qed.

(** C6: where the times of today's records are integers, the remaining
    time that [update_pie_chart] shows is [max (goal - total, 0)] for the
    total of those times, which is never negative; and the total of no
    record is 0. *)
Theorem remaining_for_today self today activities total :
  read_activities_for_today (fs self) (user_id self) today = Py.Ok activities →
  total_time activities = Py.Ok total →
  ∃ remaining,
    update_pie_chart self today = Py.Ok (total, remaining) ∧
    remaining = Z.max (daily_goal self - total) 0 ∧
    0 ≤ remaining ∧
    total_time [] = Py.Ok 0.
Proof.
  intros Hread Htotal. exists (remaining_time (daily_goal self) total).
  unfold update_pie_chart. rewrite Hread. simpl. rewrite Htotal. simpl.
  split_and!; [done | done | apply remaining_time_nonneg | done].
Qed.

Lemma remaining_for_today_witness :
  let self :=
    App {[ user_file "bob" :=
             [HEADER; ["2024-05-02"; "Work"; "Email"; "30"];
              ["2024-05-02"; "Work"; "Call"; "40"]] ]} "bob" 60 in
  ∃ remaining,
    update_pie_chart self "2024-05-02" = Py.Ok (70, remaining) ∧
    remaining = Z.max (60 - 70) 0 ∧
    0 ≤ remaining ∧
    total_time [] = Py.Ok 0.
Proof.
  intros self.
  apply (remaining_for_today self "2024-05-02"
           [record "2024-05-02" "Work" "Email" "30";
            record "2024-05-02" "Work" "Call" "40"] 70);
    reflexivity.
Defined.

(** ** The default category *)

Lemma setdefault_absent (d : dict) key default :
  fields d !! key = None → setdefault d key default = setitem d key (Some default).
Proof. intros H. unfold setdefault. by rewrite H. Qed.

Lemma setdefault_present (d : dict) key default :
  is_Some (fields d !! key) → setdefault d key default = d.
Proof. intros [v H]. unfold setdefault. by rewrite H. Qed.

(** Where the file has a category column, reading changes nothing in what
    [DictReader] made of the rows: a row too short to reach that column
    keeps the [None] the reader put there. *)
Lemma read_all_category_column (fs : filesystem) user_id fieldnames rows :
  fs !! user_file user_id = Some (fieldnames :: rows) →
  "Category" ∈ fieldnames →
  (read_all_activities fs user_id).1 = DictReader (fieldnames :: rows).
Proof.
  intros Hf Hcat. unfold read_all_activities. rewrite Hf. simpl.
  rewrite <-list_fmap_compose. apply list_fmap_ext. intros i r _. simpl.
  apply setdefault_present. by apply dict_of_row_lookup_is_Some.
Qed.

(** C9, as the code has it: in a file whose header has no category
    column, no row is rejected; each row that is not empty is returned by
    [read_all_activities] with the category ["Other"] and with every
    other field as [DictReader] made it, and [read_activities_for_today],
    which needs the date column, returns those of them dated today. *)
Theorem category_column_absent_defaulted
  (fs : filesystem) user_id today fieldnames rows :
  fs !! user_file user_id = Some (fieldnames :: rows) →
  "Category" ∉ fieldnames →
  Forall2
    (λ (r : row) (a : dict),
       fields a !! "Category" = Some (Some "Other") ∧
       (∀ key, key ≠ "Category" →
          fields a !! key = fields (dict_of_row fieldnames r) !! key) ∧
       rest a = rest (dict_of_row fieldnames r))
    (filter (λ r : row, r ≠ []) rows)
    (read_all_activities fs user_id).1 ∧
  ("Date" ∈ fieldnames →
   read_activities_for_today fs user_id today =
     Py.Ok (filter (dated today) (read_all_activities fs user_id).1)).
Proof.
  intros Hf Hcat. split.
  - unfold read_all_activities. rewrite Hf. simpl.
    rewrite <-list_fmap_compose. apply Forall2_fmap_r, Forall_Forall2_diag.
    apply Forall_forall. intros r _. simpl.
    rewrite setdefault_absent by by apply dict_of_row_lookup_None.
    simpl. split_and!; [apply lookup_insert_eq | | done].
    intros key Hkey. by rewrite lookup_insert_ne.
  - intros Hdate. apply read_today_filter. intros ?? Hf'.
    rewrite Hf in Hf'. by simplify_eq.
Qed.

Lemma category_column_absent_defaulted_witness :
  let fs : filesystem :=
    {[ user_file "bob" :=
         [["Date"; "Activity"; "TimeSpent"];
          ["2024-05-01"; "Report"; "10"];
          ["2024-05-02"; "Email"; "30"]] ]} in
  (read_all_activities fs "bob").1 =
    [record "2024-05-01" "Other" "Report" "10";
     record "2024-05-02" "Other" "Email" "30"] ∧
  Forall2
    (λ (r : row) (a : dict),
       fields a !! "Category" = Some (Some "Other") ∧
       (∀ key, key ≠ "Category" →
          fields a !! key =
          fields (dict_of_row ["Date"; "Activity"; "TimeSpent"] r) !! key) ∧
       rest a = rest (dict_of_row ["Date"; "Activity"; "TimeSpent"] r))
    [["2024-05-01"; "Report"; "10"]; ["2024-05-02"; "Email"; "30"]]
    (read_all_activities fs "bob").1 ∧
  read_activities_for_today fs "bob" "2024-05-02" =
    Py.Ok [record "2024-05-02" "Other" "Email" "30"].
Proof.
  intros fs. split; [by vm_compute|].
  destruct (category_column_absent_defaulted fs "bob" "2024-05-02"
              ["Date"; "Activity"; "TimeSpent"] _ eq_refl) as [Hall Htoday].
  - rewrite !elem_of_cons, elem_of_nil. intuition discriminate.
  - split; [exact Hall|]. rewrite Htoday; [by vm_compute|].
    apply list_elem_of_here.
Defined.

(** The claim of C9 fails for a row that lacks its category cell in a
    file that has the category column: the key is there with the reader's
    [None], so [setdefault] leaves it, and both reads return the record
    with the category [None]. *)
Lemma category_cell_absent_not_defaulted :
  let fs : filesystem := {[ user_file "bob" := [HEADER; ["2024-05-01"]] ]} in
  ∃ a,
    (read_all_activities fs "bob").1 = [a] ∧
    read_activities_for_today fs "bob" "2024-05-01" = Py.Ok [a] ∧
    fields a !! "Category" = Some None ∧
    fields a !! "Category" ≠ Some (Some "Other").
Proof.
  eexists. split; [by vm_compute|]. split; [by vm_compute|].
  split; [by vm_compute|]. by vm_compute.
Qed.

(** ** Editing and deleting *)

Section rewrite.
Implicit Types (rows : list row).

Lemma read_four_cells rows :
  Forall (λ r : row, length r = 4%nat) rows →
  Forall2 (λ (r : row) (a : dict),
             ∃ d c n t, r = [d; c; n; t] ∧ a = record d c n t)
    rows
    ((λ row, setdefault row "Category" "Other") <$>
       (dict_of_row HEADER <$> filter (λ r : row, r ≠ []) rows)).
Proof.
  induction 1 as [|r rows (d & c & n & t & ->)%four_cells _ IH].
  { constructor. }
  rewrite filter_cons, decide_True by done. rewrite !fmap_cons.
  constructor; [|done]. by exists d, c, n, t.
Qed.

Lemma read_today_four_cells today rows (activities : list dict) :
  Forall2 (λ (r : row) (a : dict),
             ∃ d c n t, r = [d; c; n; t] ∧ a = record d c n t)
    rows activities →
  Forall2 (λ (r : row) (a : dict),
             ∃ d c n t, r = [d; c; n; t] ∧ a = record d c n t)
    (today_rows today rows) (filter (dated today) activities).
Proof.
  unfold today_rows.
  induction 1 as [|r a rows activities (d & c & n & t & -> & ->) _ IH].
  { constructor. }
  rewrite !filter_cons.
  destruct (decide (d = today)) as [->|Hne].
  - rewrite !decide_True by done. constructor; [|done]. by exists today, c, n, t.
  - rewrite !decide_False; [done | |].
    + unfold dated. simpl. rewrite !lookup_insert_ne by done.
      rewrite lookup_insert_eq. congruence.
    + simpl. congruence.
Qed.

Lemma written_four_cells rows (activities : list dict) :
  Forall2 (λ (r : row) (a : dict),
             ∃ d c n t, r = [d; c; n; t] ∧ a = record d c n t)
    rows activities →
  written activities = (writerow <$> rows, Py.Ok ()).
Proof.
  induction 1 as [|r a rows activities (d & c & n & t & -> & ->) _ IH].
  { done. }
  cbn [written]. rewrite row_of_record. by rewrite IH.
Qed.

Lemma setitem_record d c n t n' t' :
  setitem (setitem (record d c n t) "Activity" (Some n'))
    "TimeSpent" (Some t') =
  record d c n' t'.
Proof. reflexivity. Qed.

(** On a well-formed store the reading of today's activities gives the
    records of the rows dated today. *)
Lemma read_today_well_formed (fs : filesystem) user_id today rows :
  fs !! user_file user_id = Some (HEADER :: rows) →
  Forall (λ r : row, length r = 4%nat) rows →
  ∃ activities,
    read_activities_for_today fs user_id today = Py.Ok activities ∧
    Forall2 (λ (r : row) (a : dict),
               ∃ d c n t, r = [d; c; n; t] ∧ a = record d c n t)
      (today_rows today rows) activities.
Proof.
  intros Hf Hrows. eexists. split.
  - apply read_today_filter. intros ?? Hf'. rewrite Hf in Hf'.
    simplify_eq. apply list_elem_of_here.
  - apply read_today_four_cells. unfold read_all_activities. rewrite Hf.
    by apply read_four_cells.
Qed.

(** What [edit_activity] leaves in the file of a well-formed store: the
    header and the rows dated today as [writerow] writes them, the row
    at [row_idx] with its new name and time.  Rows of other dates are not
    written back. *)
Lemma edit_activity_file self row_idx new_activity new_time today
    rows d c n t :
  fs self !! user_file (user_id self) = Some (HEADER :: rows) →
  Forall (λ r : row, length r = 4%nat) rows →
  today_rows today rows !! row_idx = Some [d; c; n; t] →
  fs (edit_activity self row_idx new_activity true new_time true today).1
    !! user_file (user_id self) =
  Some (HEADER ::
          (writerow <$>
             <[row_idx := [d; c; new_activity; Py.str new_time]]>
               (today_rows today rows))).
Proof.
  intros Hf Hrows Hi.
  destruct (read_today_well_formed _ _ today _ Hf Hrows)
    as (activities & Hread & Hrel).
  unfold edit_activity. simpl. rewrite Hread.
  destruct (Forall2_lookup_l _ _ _ _ _ Hrel Hi)
    as (a & Ha & d' & c' & n' & t' & ? & ->).
  simplify_eq. rewrite Ha, setitem_record. unfold write_activities.
  erewrite written_four_cells; [simpl; apply lookup_insert_eq|].
  apply Forall2_insert; [done|]. by eexists _, _, _, _.
Qed.

(** What [delete_activity] leaves: the header and the rows dated today
    but the one at [row_idx]. *)
Lemma delete_activity_file self row_idx today rows :
  fs self !! user_file (user_id self) = Some (HEADER :: rows) →
  Forall (λ r : row, length r = 4%nat) rows →
  (row_idx < length (today_rows today rows))%nat →
  fs (delete_activity self row_idx true today).1
    !! user_file (user_id self) =
  Some (HEADER :: (writerow <$> delete row_idx (today_rows today rows))).
Proof.
  intros Hf Hrows Hi.
  destruct (read_today_well_formed _ _ today _ Hf Hrows)
    as (activities & Hread & Hrel).
  unfold delete_activity. rewrite Hread.
  destruct (lookup_lt_is_Some_2 activities row_idx) as [a Ha].
  { by rewrite <-(Forall2_length _ _ _ Hrel). }
  rewrite Ha. unfold write_activities.
  erewrite written_four_cells; [simpl; apply lookup_insert_eq|].
  by apply Forall2_delete.
Qed.

End rewrite.

(** C1, at a store with one record of an earlier day and one of today:
    editing today's record writes back today's records only, and so does
    deleting it; the record of the earlier day is gone from the file. *)
Theorem edit_delete_drop_other_dates :
  let self :=
    App {[ user_file "bob" :=
             [HEADER; ["2024-05-01"; "Work"; "Report"; "10"];
              ["2024-05-02"; "Work"; "Email"; "30"]] ]} "bob" 60 in
  fs (edit_activity self 0 "Mail" true 35 true "2024-05-02").1
    !! user_file "bob" =
    Some [HEADER; ["2024-05-02"; "Work"; "Mail"; "35"]] ∧
  fs (delete_activity self 0 true "2024-05-02").1 !! user_file "bob" =
    Some [HEADER] ∧
  (read_all_activities
     (fs (edit_activity self 0 "Mail" true 35 true "2024-05-02").1) "bob").1 =
    [record "2024-05-02" "Work" "Mail" "35"].
Proof. by vm_compute. Qed.

(** ** The shape of the store *)

Lemma written_cells (activities : list dict) :
  Forall (λ r : row, length r = 4%nat) (written activities).1.
Proof.
  induction activities as [|a activities IH]; simpl; [constructor|].
  destruct (row_of a) as [r|e] eqn:Hr; simpl; [|constructor].
  destruct (written activities) as [rs res]. simpl in *.
  constructor; [by eapply row_of_cells | done].
Qed.


(** What the application writes is as a read yields it. *)
Lemma writerow_no_cr (cells : list string) :
  Forall (λ c : string, no_cr c = true) (writerow cells).
Proof.
  apply Forall_fmap, Forall_forall. intros c _. simpl.
  apply no_cr_universal_newlines.
Qed.

Lemma written_as_read (activities : list dict) :
  as_read (written activities).1.
Proof.
  induction activities as [|a activities IH]; simpl; [constructor|].
  unfold row_of.
  destruct (getitem a "Date") as [d|]; simpl; [|constructor].
  destruct (getitem a "Category") as [c|]; simpl; [|constructor].
  destruct (getitem a "Activity") as [n|]; simpl; [|constructor].
  destruct (getitem a "TimeSpent") as [t|]; simpl; [|constructor].
  destruct (written activities) as [rs res]. simpl in *.
  constructor; [|done].
  apply (writerow_no_cr [cell d; cell c; cell n; cell t]).
Qed.

Lemma write_activities_as_read (activities : list dict)
    (fs : filesystem) user_id :
  ∃ f, (write_activities activities fs user_id).1 !! user_file user_id = Some f
       ∧ as_read f.
Proof.
  unfold write_activities. pose proof (written_as_read activities) as Hread.
  destruct (written activities) as [rows res]. simpl in *.
  exists (HEADER :: rows). split; [apply lookup_insert_eq|].
  constructor; [|done]. by apply (writerow_no_cr HEADER).
Qed.

Lemma add_activity_as_read self category text duration today f :
  fs self !! user_file (user_id self) = Some f →
  as_read f →
  ∃ f', fs (add_activity self category text duration today).1
          !! user_file (user_id self) = Some f' ∧ as_read f'.
Proof.
  intros Hf Hread. unfold add_activity. case_decide; simpl; [|eauto].
  rewrite Hf, lookup_insert_eq. eexists. split; [done|].
  apply Forall_app. split; [done|].
  constructor; [|constructor].
  apply (writerow_no_cr [today; category; Py.strip text; Py.str duration]).
Qed.

Lemma initialize_csv_well_formed (fs : filesystem) user_id f :
  initialize_csv fs user_id !! user_file user_id = Some f →
  fs !! user_file user_id = Some f ∨ well_formed f.
Proof.
  unfold initialize_csv. destruct (fs !! user_file user_id) eqn:Hf.
  - rewrite Hf. auto.
  - rewrite lookup_insert_eq. intros [= <-]. right. by exists [].
Qed.

Lemma clear_history_read (fs : filesystem) user_id :
  CSVHandler.clear_history fs user_id !! user_file user_id = Some [HEADER] ∧
  read_all_activities (CSVHandler.clear_history fs user_id) user_id = ([], []).
Proof.
  unfold read_all_activities, CSVHandler.clear_history.
  by rewrite lookup_insert_eq.
Qed.




(** ** The days that meet the goal, in the words of the specification *)

Lemma times_on_date_readable activity (all : list dict) d :
  Forall readable all →
  fields activity !! "Date" = Some d →
  times_on_date activity all =
  Py.Ok (minutes <$> filter (λ a, fields a !! "Date" = Some d) all).
Proof.
  intros Hall Hd. induction Hall as [|a all (da & t & Hda & Ht) _ IH].
  { done. }
  simpl. unfold getitem. rewrite Hda, Hd. simpl. rewrite filter_cons, IH.
  destruct (decide (da = d)) as [->|Hne].
  - rewrite decide_True by done. rewrite Ht. simpl.
    unfold minutes. by rewrite Ht.
  - rewrite decide_False; [done | congruence].
Qed.

Lemma goal_dates_readable goal (all activities : list dict) :
  Forall readable all →
  Forall readable activities →
  goal_dates goal all activities =
  Py.Ok (filter (λ d, goal ≤ day_total all d)
           (omap (λ a, fields a !! "Date") activities)).
Proof.
  intros Hall Hl. induction Hl as [|a l (da & t & Hda & Ht) _ IH].
  { done. }
  simpl. rewrite (times_on_date_readable a all da Hall Hda). simpl.
  rewrite Hda. simpl. rewrite filter_cons. fold (day_total all da).
  unfold getitem. rewrite Hda, IH. simpl. by case_decide.
Qed.

(** X6: on readable records [days_completed_goal] is the number of distinct
    dates whose per-date sum of time is the goal at least. *)
Lemma days_completed_goal_readable (activities : list dict) goal :
  Forall readable activities →
  days_completed_goal activities goal =
  Py.Ok (size (filter (λ d, goal ≤ day_total activities d)
                 (dates activities))).
Proof.
  intros Hall. unfold days_completed_goal.
  rewrite goal_dates_readable by done. simpl. unfold distinct, dates.
  do 2 f_equal. apply set_eq. intros d.
  rewrite elem_of_filter, !elem_of_list_to_set, list_elem_of_filter. done.
Qed.

Example days_completed_goal_ex :
  let activities :=
    [record "2024-05-01" "Work" "Report" "45";
     record "2024-05-02" "Work" "Email" "30";
     record "2024-05-02" "Work" "Call" "40"] in
  day_total activities (Some "2024-05-01") = 45 ∧
  day_total activities (Some "2024-05-02") = 70 ∧
  days_completed_goal activities 60 = Py.Ok 1%nat ∧
  days_completed_goal activities 71 = Py.Ok 0%nat.
Proof. by vm_compute. Qed.

(** * Further properties of the store *)

(** ** Clearing and writing *)

(** X1: clearing leaves the header alone in the user's file, whatever was
    there and also when nothing was: both reads return no activity and
    show no message, and no other file is touched. *)
Theorem clear_history_empties (fs : filesystem) user_id today :
  let fs' := CSVHandler.clear_history fs user_id in
  fs' !! user_file user_id = Some [HEADER] ∧
  read_all_activities fs' user_id = ([], []) ∧
  read_activities_for_today fs' user_id today = Py.Ok [] ∧
  (∀ path, path ≠ user_file user_id → fs' !! path = fs !! path).
Proof.
  intros fs'. subst fs'.
  destruct (clear_history_read fs user_id) as [Hf Hread].
  split_and!; [done | done | |].
  - unfold read_activities_for_today. by rewrite Hf.
  - intros path Hne. unfold CSVHandler.clear_history.
    by rewrite lookup_insert_ne.
Qed.

Lemma written_length (activities : list dict) :
  (length (written activities).1 ≤ length activities)%nat ∧
  ((written activities).2 = Py.Ok () →
   length (written activities).1 = length activities).
Proof.
  induction activities as [|a activities [IH1 IH2]]; simpl; [done|].
  destruct (row_of a); simpl; [|split; [lia | done]].
  destruct (written activities) as [rs res]. simpl in *.
  split; [lia | auto].
Qed.

(** X2: whatever list it is given, and also where a missing key makes it
    raise, [write_activities] replaces the user's file by the header
    followed by rows of four cells, at most one for each activity and
    exactly one where it does not raise, and touches no other file. *)
Theorem write_activities_shape (activities : list dict)
    (fs : filesystem) user_id :
  ∃ rows,
    (write_activities activities fs user_id).1 =
      <[user_file user_id := HEADER :: rows]> fs ∧
    Forall (λ r : row, length r = 4%nat) rows ∧
    (length rows ≤ length activities)%nat ∧
    ((write_activities activities fs user_id).2 = Py.Ok () →
     length rows = length activities).
Proof.
  unfold write_activities.
  pose proof (written_cells activities) as Hcells.
  pose proof (written_length activities) as [Hle Heq].
  destruct (written activities) as [rows res]. simpl in *. by exists rows.
Qed.

(** X3: writing activities that have the four keys raises nothing, and
    reading afterwards returns them in the same order, each reduced to
    its four cells, with [None] turned into the empty string and CR or
    CRLF into LF. *)
Theorem write_then_read (activities : list dict) (fs : filesystem) user_id :
  Forall writable activities →
  ∃ fs',
    write_activities activities fs user_id = (fs', Py.Ok ()) ∧
    read_all_activities fs' user_id = (normalise <$> activities, []).
Proof.
  intros (rows & Hrows & Hread)%written_writable.
  unfold write_activities. rewrite Hrows. eexists. split; [done|].
  unfold read_all_activities. rewrite lookup_insert_eq. simpl.
  by rewrite Hread.
Qed.

Lemma write_then_read_witness :
  let kept := record "2024-05-01" "Work" "Report" "10" in
  let loose :=
    Dict {[ "Date" := Some "2024-05-02"; "Category" := None;
            "Activity" := Some (String "a" (String "013" "b"));
            "TimeSpent" := Some "30";
            "Note" := Some "x" ]} (Some ["y"]) in
  ∃ fs',
    write_activities [kept; loose] ∅ "bob" = (fs', Py.Ok ()) ∧
    read_all_activities fs' "bob" =
      ([kept; record "2024-05-02" "" (String "a" (String "010" "b")) "30"],
       []).
Proof.
  intros kept loose.
  apply (write_then_read [kept; loose] ∅ "bob").
  apply (bool_decide_unpack _). by vm_compute.
Defined.

Lemma row_of_not_writable (activity : dict) :
  ¬ writable activity →
  ∃ key, row_of activity = Py.Raise (Py.KeyError key) ∧
         fields activity !! key = None ∧
         key ∈ HEADER.
Proof.
  intros Hnot. unfold row_of, getitem.
  destruct (fields activity !! "Date") as [d|] eqn:Hd; simpl;
    [|exists "Date"; split_and!; [done | done | set_solver]].
  destruct (fields activity !! "Category") as [c|] eqn:Hc; simpl;
    [|exists "Category"; split_and!; [done | done | set_solver]].
  destruct (fields activity !! "Activity") as [n|] eqn:Hn; simpl;
    [|exists "Activity"; split_and!; [done | done | set_solver]].
  destruct (fields activity !! "TimeSpent") as [t|] eqn:Ht; simpl;
    [|exists "TimeSpent"; split_and!; [done | done | set_solver]].
  destruct Hnot. unfold writable. rewrite Hd, Hc, Hn, Ht. eauto.
Qed.

(** X4: an activity that lacks one of the four keys stops the writing with a
    [KeyError] for a missing column: the file is left with the header and
    the rows of the activities before it, and those after it are lost. *)
Theorem write_activities_key_error
    (before after : list dict) (activity : dict) (fs : filesystem) user_id :
  Forall writable before →
  ¬ writable activity →
  ∃ key rows,
    write_activities (before ++ activity :: after) fs user_id =
      (<[user_file user_id := HEADER :: rows]> fs,
       Py.Raise (Py.KeyError key)) ∧
    fields activity !! key = None ∧
    key ∈ HEADER ∧
    written before = (rows, Py.Ok ()) ∧
    length rows = length before.
Proof.
  intros Hbefore Hnot.
  destruct (row_of_not_writable activity Hnot) as (key & Hr & Hkey & Hin).
  destruct (written_writable before Hbefore) as (rows & Hrows & _).
  exists key, rows. split_and!; [|done..|].
  - unfold write_activities.
    assert (written (before ++ activity :: after) =
            (rows, Py.Raise (Py.KeyError key))) as ->; [|done].
    clear Hbefore. revert rows Hrows.
    induction before as [|b before IH]; intros rows Hrows; simpl in *.
    + rewrite Hr. by simplify_eq.
    + destruct (row_of b) as [r|e]; [|by simplify_eq].
      destruct (written before) as [rs res]. simplify_eq.
      by rewrite (IH rs eq_refl).
  - pose proof (written_length before) as [_ Hlen].
    rewrite Hrows in Hlen. simpl in Hlen. by apply Hlen.
Qed.

Lemma write_activities_key_error_witness :
  let first := record "2024-05-01" "Work" "Report" "10" in
  let broken := Dict {[ "Date" := Some "2024-05-02" ]} None in
  let last := record "2024-05-03" "Work" "Call" "40" in
  ∃ key rows,
    write_activities ([first] ++ broken :: [last]) ∅ "bob" =
      (<[user_file "bob" := HEADER :: rows]> ∅,
       Py.Raise (Py.KeyError key)) ∧
    fields broken !! key = None ∧
    key ∈ HEADER ∧
    written [first] = (rows, Py.Ok ()) ∧
    length rows = length [first].
Proof.
  intros first broken last.
  apply (write_activities_key_error [first] [last] broken ∅ "bob").
  - apply (bool_decide_unpack _). by vm_compute.
  - intros (_ & [c Hc] & _). by vm_compute in Hc.
Defined.

Lemma read_today_no_date_column_witness :
  read_activities_for_today
    {[ user_file "bob" :=
         [["Day"; "Activity"; "TimeSpent"]; ["2024-05-02"; "Email"; "30"]] ]}
    "bob" "2024-05-02" =
  Py.Raise (Py.KeyError "Date").
Proof.
  apply (read_today_no_date_column _ "bob" "2024-05-02"
           ["Day"; "Activity"; "TimeSpent"] ["2024-05-02"; "Email"; "30"] []).
  - reflexivity.
  - rewrite !elem_of_cons, elem_of_nil. intuition discriminate.
  - discriminate.
Defined.

Lemma days_completed_goal_readable_witness :
  let activities :=
    [record "2024-05-01" "Work" "Report" "45";
     record "2024-05-02" "Work" "Email" "30";
     record "2024-05-02" "Work" "Call" "40"] in
  days_completed_goal activities 60 =
  Py.Ok (size (filter (λ d, 60 ≤ day_total activities d) (dates activities))).
Proof.
  intros activities. apply (days_completed_goal_readable activities 60).
  apply Forall_cons_2;
    [|apply Forall_cons_2; [|apply Forall_cons_2; [|apply Forall_nil_2]]].
  - exists (Some "2024-05-01"), 45. split; by vm_compute.
  - exists (Some "2024-05-02"), 30. split; by vm_compute.
  - exists (Some "2024-05-02"), 40. split; by vm_compute.
Defined.

(** ** The handlers and the files *)

Lemma write_activities_other (activities : list dict) (fs : filesystem)
    user_id path :
  path ≠ user_file user_id →
  (write_activities activities fs user_id).1 !! path = fs !! path.
Proof.
  intros Hne. unfold write_activities.
  destruct (written activities) as [rows res]. simpl.
  by rewrite lookup_insert_ne.
Qed.

(** X11: the three handlers that change the store open no file but the one of
    the current user, and leave the user id and the goal as they were. *)
Theorem handlers_touch_own_file
    self path category text duration row_idx new_activity ok_activity
    new_time ok_time confirm today :
  path ≠ user_file (user_id self) →
  let added := (add_activity self category text duration today).1 in
  let edited :=
    (edit_activity self row_idx new_activity ok_activity new_time ok_time
       today).1 in
  let deleted := (delete_activity self row_idx confirm today).1 in
  (fs added !! path = fs self !! path ∧
   fs edited !! path = fs self !! path ∧
   fs deleted !! path = fs self !! path) ∧
  (user_id added = user_id self ∧ user_id edited = user_id self ∧
   user_id deleted = user_id self) ∧
  (daily_goal added = daily_goal self ∧ daily_goal edited = daily_goal self ∧
   daily_goal deleted = daily_goal self).
Proof.
  intros Hne added edited deleted.
  assert (fs added !! path = fs self !! path ∧ user_id added = user_id self
          ∧ daily_goal added = daily_goal self) as (? & ? & ?).
  { subst added. unfold add_activity. case_decide; simpl; [|done].
    by rewrite lookup_insert_ne. }
  assert (fs edited !! path = fs self !! path ∧ user_id edited = user_id self
          ∧ daily_goal edited = daily_goal self) as (? & ? & ?).
  { subst edited. unfold edit_activity.
    destruct (ok_activity && ok_time); [|done].
    destruct (read_activities_for_today _ _ _) as [activities|e]; [|done].
    destruct (activities !! row_idx) as [a|]; [|done].
    match goal with
    | |- context [write_activities ?l ?fs ?u] =>
        pose proof (write_activities_other l fs u path Hne) as Hw;
        destruct (write_activities l fs u) as [fs' res]
    end.
    done. }
  assert (fs deleted !! path = fs self !! path
          ∧ user_id deleted = user_id self
          ∧ daily_goal deleted = daily_goal self) as (? & ? & ?).
  { subst deleted. unfold delete_activity. destruct confirm; [|done].
    destruct (read_activities_for_today _ _ _) as [activities|e]; [|done].
    destruct (activities !! row_idx) as [a|]; [|done].
    match goal with
    | |- context [write_activities ?l ?fs ?u] =>
        pose proof (write_activities_other l fs u path Hne) as Hw;
        destruct (write_activities l fs u) as [fs' res]
    end.
    done. }
  done.
Qed.


(** ** Editing and deleting by the row of the table *)

(** X13: a row index past the end of today's activities makes both handlers
    raise [IndexError] before anything is written; a dialog that is not
    accepted, or a deletion that is not confirmed, does nothing. *)
Theorem edit_delete_out_of_range
    self row_idx new_activity new_time today (activities : list dict) :
  read_activities_for_today (fs self) (user_id self) today = Py.Ok activities →
  (length activities ≤ row_idx)%nat →
  edit_activity self row_idx new_activity true new_time true today =
    (self, Py.Raise Py.IndexError) ∧
  delete_activity self row_idx true today = (self, Py.Raise Py.IndexError) ∧
  (∀ ok_activity ok_time,
     ok_activity && ok_time = false →
     edit_activity self row_idx new_activity ok_activity new_time ok_time today =
       (self, Py.Ok ())) ∧
  delete_activity self row_idx false today = (self, Py.Ok ()).
Proof.
  intros Hread Hlen. apply lookup_ge_None_2 in Hlen.
  unfold edit_activity, delete_activity. simpl. rewrite Hread, Hlen.
  split_and!; [done | done | | done]. by intros ?? ->.
Qed.

Lemma edit_delete_out_of_range_witness :
  let self :=
    App {[ user_file "bob" :=
             [HEADER; ["2024-05-01"; "Work"; "Report"; "10"];
              ["2024-05-02"; "Work"; "Email"; "30"]] ]} "bob" 60 in
  edit_activity self 1 "Mail" true 35 true "2024-05-02" =
    (self, Py.Raise Py.IndexError) ∧
  delete_activity self 1 true "2024-05-02" = (self, Py.Raise Py.IndexError) ∧
  (∀ ok_activity ok_time,
     ok_activity && ok_time = false →
     edit_activity self 1 "Mail" ok_activity 35 ok_time "2024-05-02" =
       (self, Py.Ok ())) ∧
  delete_activity self 1 false "2024-05-02" = (self, Py.Ok ()).
Proof.
  intros self.
  apply (edit_delete_out_of_range self 1 "Mail" 35 "2024-05-02"
           [record "2024-05-02" "Work" "Email" "30"]).
  - reflexivity.
  - simpl. lia.
Defined.

Lemma today_rows_all today (rows : list row) :
  Forall (λ r : row, r !! 0%nat = Some today) rows →
  today_rows today rows = rows.
Proof.
  unfold today_rows. induction 1 as [|r rows Hr _ IH]; [done|].
  by rewrite filter_cons, decide_True, IH.
Qed.

(** X14: in a well-formed store that holds records of today only, editing
    changes the name and the time of the row at [row_idx] and nothing
    else, and deleting removes that row and nothing else: the file is
    what [writerow] makes of these rows, which is the rows themselves
    where they have no CR ([writerow_rows_as_read]). *)
Theorem edit_delete_today_only
    self today rows row_idx d c n t new_activity new_time :
  fs self !! user_file (user_id self) = Some (HEADER :: rows) →
  Forall (λ r : row, length r = 4%nat) rows →
  Forall (λ r : row, r !! 0%nat = Some today) rows →
  rows !! row_idx = Some [d; c; n; t] →
  fs (edit_activity self row_idx new_activity true new_time true today).1
    !! user_file (user_id self) =
    Some (HEADER ::
            (writerow <$>
               <[row_idx := [d; c; new_activity; Py.str new_time]]> rows)) ∧
  fs (delete_activity self row_idx true today).1
    !! user_file (user_id self) =
    Some (HEADER :: (writerow <$> delete row_idx rows)).
Proof.
  intros Hf Hcells Htoday Hi. split.
  - rewrite (edit_activity_file self row_idx new_activity new_time today
               rows d c n t Hf Hcells); rewrite today_rows_all; done.
  - rewrite (delete_activity_file self row_idx today rows Hf Hcells);
      rewrite today_rows_all by done; [done|].
    by eapply lookup_lt_Some.
Qed.

Lemma edit_delete_today_only_witness :
  let rows :=
    [["2024-05-02"; "Work"; "Email"; "30"];
     ["2024-05-02"; "Leisure"; "Walk"; "20"]] in
  let self := App {[ user_file "bob" := HEADER :: rows ]} "bob" 60 in
  fs (edit_activity self 1 "Run" true 25 true "2024-05-02").1
    !! user_file "bob" =
    Some [HEADER; ["2024-05-02"; "Work"; "Email"; "30"];
          ["2024-05-02"; "Leisure"; "Run"; "25"]] ∧
  fs (delete_activity self 1 true "2024-05-02").1 !! user_file "bob" =
    Some [HEADER; ["2024-05-02"; "Work"; "Email"; "30"]].
Proof.
  intros rows self.
  apply (edit_delete_today_only self "2024-05-02" rows 1
           "2024-05-02" "Leisure" "Walk" "20" "Run" 25).
  - reflexivity.
  - apply Forall_cons_2; [done|]. apply Forall_cons_2; [done|]. constructor.
  - apply Forall_cons_2; [done|]. apply Forall_cons_2; [done|]. constructor.
  - reflexivity.
Defined.

(** ** The tables *)

Lemma table_cells (rows : list row) (activities : list dict) :
  Forall2 shows rows activities →
  Py.traverse (λ activity,
      c ← getitem activity "Category"; c ← item c;
      a ← getitem activity "Activity"; a ← item a;
      t ← getitem activity "TimeSpent"; t ← item t;
      Py.Ok [c; a; t]) activities =
  Py.Ok (drop 1 <$> rows).
Proof.
  induction 1 as [|r a rows activities (d & c & n & t & -> & ->) _ IH].
  { done. }
  cbn [Py.traverse]. rewrite IH. reflexivity.
Qed.

Lemma history_cells (rows : list row) (activities : list dict) :
  Forall2 shows rows activities →
  Py.traverse (λ activity,
      d ← getitem activity "Date"; d ← item d;
      c ← getitem activity "Category"; c ← item c;
      a ← getitem activity "Activity"; a ← item a;
      t ← getitem activity "TimeSpent"; t ← item t;
      Py.Ok [d; c; a; t]) activities =
  Py.Ok rows.
Proof.
  induction 1 as [|r a rows activities (d & c & n & t & -> & ->) _ IH].
  { done. }
  cbn [Py.traverse]. rewrite IH. reflexivity.
Qed.

Lemma load_activities_rows self today rows :
  fs self !! user_file (user_id self) = Some (HEADER :: rows) →
  Forall (λ r : row, length r = 4%nat) rows →
  load_activities self today = Py.Ok (drop 1 <$> today_rows today rows).
Proof.
  intros Hf Hcells.
  destruct (read_today_well_formed _ _ today _ Hf Hcells)
    as (activities & Hread & Hrel).
  unfold load_activities. rewrite Hread. simpl. by apply table_cells.
Qed.

(** X15: on a well-formed store the table of today's activities has one row
    for each stored row dated today, in the order of the file, showing
    its category, name and time; and the history table shows all stored
    rows as they are, with no message. *)
Theorem tables_show_rows self today rows :
  fs self !! user_file (user_id self) = Some (HEADER :: rows) →
  Forall (λ r : row, length r = 4%nat) rows →
  load_activities self today = Py.Ok (drop 1 <$> today_rows today rows) ∧
  show_history self = (Py.Ok rows, []).
Proof.
  intros Hf Hcells. split.
  - by apply load_activities_rows.
  - unfold show_history, read_all_activities. rewrite Hf.
    f_equal. apply history_cells. by apply read_four_cells.
Qed.

Lemma tables_show_rows_witness :
  let rows :=
    [["2024-05-01"; "Work"; "Report"; "10"];
     ["2024-05-02"; "Work"; "Email"; "30"]] in
  let self := App {[ user_file "bob" := HEADER :: rows ]} "bob" 60 in
  load_activities self "2024-05-02" = Py.Ok [["Work"; "Email"; "30"]] ∧
  show_history self = (Py.Ok rows, []).
Proof.
  intros rows self. apply (tables_show_rows self "2024-05-02" rows).
  - reflexivity.
  - apply Forall_cons_2; [done|]. apply Forall_cons_2; [done|]. constructor.
Defined.

(** X16: on a well-formed store the row that [edit_activity] rewrites is the
    one the table shows at that index: what is written back in its place
    has its date and category and the new name and time, and the file is
    what [writerow] makes of today's rows with that row in its place,
    which is these rows themselves where they have no CR
    ([writerow_rows_as_read]). *)
Theorem edit_shown_row
    self today rows row_idx table (cells : list string)
    new_activity new_time :
  fs self !! user_file (user_id self) = Some (HEADER :: rows) →
  Forall (λ r : row, length r = 4%nat) rows →
  load_activities self today = Py.Ok table →
  table !! row_idx = Some cells →
  ∃ c n t,
    cells = [c; n; t] ∧
    today_rows today rows !! row_idx = Some [today; c; n; t] ∧
    fs (edit_activity self row_idx new_activity true new_time true today).1
      !! user_file (user_id self) =
      Some (HEADER ::
              (writerow <$>
                 <[row_idx := [today; c; new_activity; Py.str new_time]]>
                   (today_rows today rows))).
Proof.
  intros Hf Hcells Hload Hi.
  rewrite (load_activities_rows self today rows Hf Hcells) in Hload.
  simplify_eq.
  rewrite list_lookup_fmap in Hi.
  destruct (today_rows today rows !! row_idx) as [r|] eqn:Hr; [|done].
  simpl in Hi. simplify_eq.
  assert (length r = 4%nat ∧ r !! 0%nat = Some today) as [Hlen Hdate].
  { apply list_elem_of_lookup_2 in Hr. unfold today_rows in Hr.
    apply list_elem_of_filter in Hr as [Hdate Hin].
    split; [|done]. by eapply Forall_forall in Hcells. }
  apply four_cells in Hlen as (d & c & n & t & ->). simpl in Hdate.
  simplify_eq. exists c, n, t. split_and!; [done | done |].
  by eapply edit_activity_file.
Qed.

Lemma edit_shown_row_witness :
  let rows :=
    [["2024-05-01"; "Work"; "Report"; "10"];
     ["2024-05-02"; "Work"; "Email"; "30"]] in
  let self := App {[ user_file "bob" := HEADER :: rows ]} "bob" 60 in
  ∃ c n t,
    ["Work"; "Email"; "30"] = [c; n; t] ∧
    today_rows "2024-05-02" rows !! 0%nat = Some ["2024-05-02"; c; n; t] ∧
    fs (edit_activity self 0 "Mail" true 35 true "2024-05-02").1
      !! user_file "bob" =
      Some (HEADER ::
              <[0%nat := ["2024-05-02"; c; "Mail"; Py.str 35]]>
                (today_rows "2024-05-02" rows)).
Proof.
  intros rows self.
  destruct (edit_shown_row self "2024-05-02" rows 0
              [["Work"; "Email"; "30"]] ["Work"; "Email"; "30"] "Mail" 35)
    as (c & n & t & Hcells & Hrow & Hfile).
  - reflexivity.
  - apply Forall_cons_2; [done|]. apply Forall_cons_2; [done|]. constructor.
  - reflexivity.
  - reflexivity.
  - injection Hcells as <- <- <-.
    exists "Work", "Email", "30". split; [reflexivity|].
    split; [exact Hrow | exact Hfile].
Defined.

(** ** The statistics as a whole *)

Lemma traverse_length {A B : Type} (f : A → Py.result B) (l : list A) ys :
  Py.traverse f l = Py.Ok ys → length ys = length l.
Proof.
  revert ys. induction l as [|x l IH]; intros ys; simpl.
  { by intros [= <-]. }
  destruct (f x); simpl; [|done].
  destruct (Py.traverse f l) as [ys'|]; simpl; [|done].
  intros [= <-]. simpl. by rewrite (IH ys').
Qed.


Lemma distinct_le_length (l : list Py.value) : (distinct l ≤ length l)%nat.
Proof.
  unfold distinct. induction l as [|x l IH]; simpl.
  { done. }
  rewrite size_union_alt, size_singleton.
  assert ((list_to_set l ∖ {[x]} : gset Py.value) ⊆ list_to_set l) as Hsub
    by apply subseteq_difference_l, reflexivity.
  apply subseteq_size in Hsub. lia.
Qed.

Lemma goal_dates_subseteq goal (all activities : list dict) ds all_dates :
  goal_dates goal all activities = Py.Ok ds →
  Py.traverse (λ a, getitem a "Date") activities = Py.Ok all_dates →
  ds ⊆ all_dates.
Proof.
  revert ds all_dates.
  induction activities as [|a activities IH]; intros ds all_dates; simpl.
  { intros [= <-] _. apply list_subseteq_nil. }
  destruct (times_on_date a all) as [ts|]; simpl; [|done].
  destruct (getitem a "Date") as [d|]; simpl; [|by case_decide].
  destruct (Py.traverse _ activities) as [ds'|]; simpl; [|by intros _ ?].
  destruct (goal_dates goal all activities) as [gs|]; simpl;
    [|by case_decide].
  specialize (IH gs ds' eq_refl eq_refl).
  case_decide; intros [= <-] [= <-].
  - by apply list_subseteq_skip.
  - by apply list_subseteq_cons.
Qed.

(** X7: whenever [update_stats] has numbers to show, they are ordered: the
    days that meet the goal are among the days logged, and neither the
    days logged nor the distinct names are more than the activities. *)
Theorem update_stats_bounds self st dialogs :
  update_stats self = (Py.Ok st, dialogs) →
  (stats_days_completed_goal st ≤ days_logged st)%nat ∧
  (days_logged st ≤ total_activities st)%nat ∧
  (unique_activities st ≤ total_activities st)%nat.
Proof.
  unfold update_stats.
  destruct (read_all_activities (fs self) (user_id self))
    as [activities shown_].
  destruct (Py.traverse (λ a, getitem a "Activity") activities)
    as [names|] eqn:Hnames; simpl; [|done].
  destruct (total_time activities) as [total|]; simpl; [|done].
  destruct (Py.traverse (λ a, getitem a "Date") activities)
    as [all_dates|] eqn:Hdates; simpl; [|done].
  unfold days_completed_goal.
  destruct (goal_dates (daily_goal self) activities activities)
    as [ds|] eqn:Hds; simpl; [|done].
  intros [= <- <-]. simpl.
  apply traverse_length in Hnames as Hn. apply traverse_length in Hdates as Hd.
  pose proof (distinct_le_length names). pose proof (distinct_le_length all_dates).
  pose proof (distinct_mono _ _ (goal_dates_subseteq _ _ _ _ _ Hds Hdates)).
  lia.
Qed.

Lemma update_stats_bounds_witness :
  let self :=
    App {[ user_file "bob" :=
             [HEADER; ["2024-05-01"; "Work"; "Report"; "10"];
              ["2024-05-02"; "Work"; "Email"; "30"];
              ["2024-05-02"; "Work"; "Email"; "40"]] ]} "bob" 60 in
  update_stats self = (Py.Ok (Stats 3 2 80 2 1), []) ∧
  (1 ≤ 2)%nat ∧ (2 ≤ 3)%nat ∧ (2 ≤ 3)%nat.
Proof.
  intros self. assert (update_stats self = (Py.Ok (Stats 3 2 80 2 1), []))
    as Hstats by by vm_compute.
  split; [done|]. exact (update_stats_bounds self _ _ Hstats).
Defined.



Lemma time_spent_record_of s : time_spent (record_of s) = Py.Ok (sub_duration s).
Proof. unfold record_of. apply time_spent_record. Qed.

Lemma dated_record_of s :
  dated (universal_newlines (sub_today s)) (record_of s).
Proof. reflexivity. Qed.



Lemma readable_record_of s : readable (record_of s).
Proof.
  exists (Some (universal_newlines (sub_today s))), (sub_duration s). split.
  - reflexivity.
  - apply time_spent_record_of.
Qed.

Lemma traverse_key_records key (subs : list submission) :
  key ∈ HEADER →
  ∃ vs, Py.traverse (λ a, getitem a key) (record_of <$> subs) = Py.Ok vs.
Proof.
  intros Hkey. induction subs as [|s subs [vs IH]]; [by eexists|].
  rewrite fmap_cons. cbn [Py.traverse]. rewrite IH.
  assert (∃ v, getitem (record_of s) key = Py.Ok v) as [v ->];
    [|by eexists].
  unfold HEADER in Hkey. rewrite !elem_of_cons, elem_of_nil in Hkey.
  destruct Hkey as [->|[->|[->|[->|[]]]]]; by eexists.
Qed.

(** X8: the statistics after any sequence of submissions to a freshly
    initialised store: nothing is raised and no message is shown, the
    number of activities is the number of submissions that had a name,
    and the total time is the sum of their durations. *)
Theorem update_stats_after_submissions
    (fs0 : filesystem) user_id goal subs :
  fs0 !! user_file user_id = None →
  ∃ st,
    update_stats
      (submit_all (App (initialize_csv fs0 user_id) user_id goal) subs) =
      (Py.Ok st, []) ∧
    total_activities st = length (filter named subs) ∧
    stats_total_time st = Py.sum (sub_duration <$> filter named subs).
Proof.
  intros Hfresh.
  set (self := App (initialize_csv fs0 user_id) user_id goal).
  assert (fs self !! user_file (AccumulativeHourApp.user_id self) =
          Some [HEADER]) as Hf.
  { simpl. unfold initialize_csv. rewrite Hfresh. apply lookup_insert_eq. }
  pose proof (read_all_submit_all self subs [] Hf) as Hall.
  assert ((read_all_activities (fs self) (AccumulativeHourApp.user_id self)).1
          = []) as Hnil.
  { unfold read_all_activities. by rewrite Hf. }
  rewrite Hnil, app_nil_l in Hall.
  unfold update_stats. rewrite submit_all_user_id, Hall.
  set (named_subs := filter named subs).
  destruct (traverse_key_records "Activity" named_subs) as [names ->];
    [set_solver|].
  destruct (traverse_key_records "Date" named_subs) as [ds ->];
    [set_solver|].
  rewrite total_time_records. unfold days_completed_goal.
  rewrite goal_dates_readable.
  - simpl. eexists. split; [done|]. simpl. by rewrite length_fmap.
  - apply Forall_fmap, Forall_forall. intros s _. apply readable_record_of.
  - apply Forall_fmap, Forall_forall. intros s _. apply readable_record_of.
Qed.

Lemma update_stats_after_submissions_witness :
  let subs :=
    [Submission "Work" " Email " 30 "2024-05-02";
     Submission "Work" "   " 5 "2024-05-02";
     Submission "Work" "Call" 40 "2024-05-02"] in
  ∃ st,
    update_stats (submit_all (App (initialize_csv ∅ "bob") "bob" 60) subs) =
      (Py.Ok st, []) ∧
    total_activities st = length (filter named subs) ∧
    stats_total_time st = Py.sum (sub_duration <$> filter named subs).
Proof.
  intros subs. apply (update_stats_after_submissions ∅ "bob" 60 subs).
  reflexivity.
Defined.

(** ** Logging in, registering, clearing *)

(** What is shown of a store that holds the header only. *)
Lemma empty_store_views self today :
  fs self !! user_file (user_id self) = Some [HEADER] →
  load_activities self today = Py.Ok [] ∧
  update_pie_chart self today = Py.Ok (0, Z.max (daily_goal self - 0) 0) ∧
  refresh self today = Py.Ok () ∧
  update_stats self = (Py.Ok (Stats 0 0 0 0 0), []).
Proof.
  intros Hf.
  unfold refresh, load_activities, update_pie_chart, update_stats,
    read_activities_for_today, read_all_activities.
  rewrite Hf. by split_and!.
Qed.

Lemma load_user_data_no_dialog self today :
  (load_user_data self today).2 = [].
Proof.
  unfold load_user_data.
  set (self' := with_fs self (initialize_csv (fs self) (user_id self))).
  destruct (refresh self' today); [|done].
  assert (is_Some (fs self' !! user_file (user_id self'))) as [f Hf].
  { simpl. unfold initialize_csv.
    destruct (fs self !! user_file (user_id self)) eqn:Hold.
    - by rewrite Hold.
    - by rewrite lookup_insert_eq. }
  unfold update_stats, read_all_activities. by rewrite Hf.
Qed.

Lemma load_user_data_state self today :
  (load_user_data self today).1.1 =
  with_fs self (initialize_csv (fs self) (user_id self)).
Proof.
  unfold load_user_data. destruct (refresh _ today); [|done].
  by destruct (update_stats _).
Qed.

(** For a user id without a separator, where no file is in the way of
    [USER_DATA_DIR] and no directory has the name of the user's file,
    logging in does what [login] does, which has no directories. *)
Lemma login_on_plain directories self user_id ok today :
  plain user_id = true →
  USER_DATA_DIR ∈ directories ∨ fs self !! USER_DATA_DIR = None →
  user_file user_id ∉ directories →
  (login_on directories self user_id ok today).2 =
  login self user_id ok today.
Proof.
  intros Hplain Hdir Hnodir. unfold login_on, login.
  destruct (ok && _); [|done].
  unfold load_user_data_on, load_user_data. simpl.
  destruct (initialize_csv_on_files (Disk directories (fs self)) user_id)
    as (d' & -> & Hfiles & Hnodir'); [done..|].
  rewrite bool_decide_false by done. simpl in Hfiles. rewrite Hfiles.
  unfold with_fs. simpl.
  destruct (refresh _ today); [|done]. by destruct (update_stats _).
Qed.

(** X17: logging in with an id that is not empty and has no separator, where
    no file is in the way of the directory and no directory has the name
    of the user's file, makes that id current and makes sure its file
    exists: a header-only file is created where there was none, a file
    that is there is left as it is, and so is every other file. *)
Theorem login_opens_store directories self user_id today :
  user_id ≠ "" →
  plain user_id = true →
  USER_DATA_DIR ∈ directories ∨ fs self !! USER_DATA_DIR = None →
  user_file user_id ∉ directories →
  let self' := (login_on directories self user_id true today).2.1.1 in
  AccumulativeHourApp.user_id self' = user_id ∧
  daily_goal self' = daily_goal self ∧
  (∀ f, fs self !! user_file user_id = Some f → fs self' = fs self) ∧
  (fs self !! user_file user_id = None →
   fs self' !! user_file user_id = Some [HEADER]) ∧
  (∀ path, path ≠ user_file user_id → fs self' !! path = fs self !! path).
Proof.
  intros Hid Hplain Hdir Hnodir self'. subst self'.
  rewrite login_on_plain by done. unfold login.
  rewrite bool_decide_true by done. simpl. rewrite load_user_data_state.
  simpl. split_and!; [done | done | | |].
  - intros f Hf. apply initialize_csv_existing. by rewrite Hf.
  - intros Hf. unfold initialize_csv. rewrite Hf. apply lookup_insert_eq.
  - intros path Hne. by apply initialize_csv_other.
Qed.

Lemma login_opens_store_witness :
  let self := App {[ user_file "bob" := [HEADER] ]} "bob" 60 in
  let self' := (login_on ∅ self "eve" true "2024-05-02").2.1.1 in
  user_id self' = "eve" ∧
  daily_goal self' = 60 ∧
  (∀ f, fs self !! user_file "eve" = Some f → fs self' = fs self) ∧
  (fs self !! user_file "eve" = None →
   fs self' !! user_file "eve" = Some [HEADER]) ∧
  (∀ path, path ≠ user_file "eve" → fs self' !! path = fs self !! path).
Proof.
  intros self.
  apply (login_opens_store ∅ self "eve" "2024-05-02");
    [discriminate | reflexivity | by right | apply not_elem_of_empty].
Defined.

(** X18: registering does what logging in does: with the same answers the two
    handlers end in the same state, with the same outcome and the same
    messages; an id that is taken is not refused and its file is kept. *)
Theorem register_is_login self user_id ok today :
  register self user_id ok today = login self user_id ok today.
Proof.
  unfold register, login. destruct (ok && _); [|done].
  unfold load_user_data. simpl.
  assert (initialize_csv (initialize_csv (fs self) user_id) user_id =
          initialize_csv (fs self) user_id) as ->; [|done].
  apply initialize_csv_existing. unfold initialize_csv.
  destruct (fs self !! user_file user_id) eqn:Hf.
  - by rewrite Hf.
  - by rewrite lookup_insert_eq.
Qed.

(** X19: neither logging in nor registering ever shows the warning of the
    missing file: the file is initialised before anything is read. *)
Theorem login_shows_no_warning self user_id ok today :
  (login self user_id ok today).2 = [] ∧
  (register self user_id ok today).2 = [].
Proof.
  unfold login, register.
  destruct (ok && _); [|done]. by rewrite !load_user_data_no_dialog.
Qed.

(** X20: logging in with an id without a separator that has no file yet,
    where no file is in the way of the directory, raises nothing and
    shows no message of the file handling: the directory is there
    afterwards, and the new store is created with the header only. *)
Theorem login_fresh_user directories self user_id today :
  user_id ≠ "" →
  plain user_id = true →
  USER_DATA_DIR ∈ directories ∨ fs self !! USER_DATA_DIR = None →
  user_file user_id ∉ directories →
  fs self !! user_file user_id = None →
  login_on directories self user_id true today =
  ({[USER_DATA_DIR]} ∪ directories,
   (App (<[user_file user_id := [HEADER]]> (fs self)) user_id (daily_goal self),
    Py.Ok (), [])).
Proof.
  intros Hid Hplain Hdir Hnodir Hfresh. unfold login_on.
  rewrite bool_decide_true by done. simpl.
  unfold load_user_data_on. simpl.
  rewrite initialize_csv_on_fresh;
    [|by apply directory_ready_plain | done | by apply exists_false].
  simpl. rewrite bool_decide_false.
  2:{ pose proof (user_file_not_directory user_id).
      rewrite elem_of_union, elem_of_singleton. tauto. }
  set (self' := with_fs _ _).
  destruct (empty_store_views self' today) as (_ & _ & -> & ->); [|done].
  apply lookup_insert_eq.
Qed.

Lemma login_fresh_user_witness :
  login_on ∅ (App ∅ "default" 60) "bob" true "2024-05-02" =
  ({[USER_DATA_DIR]} ∪ ∅,
   (App (<[user_file "bob" := [HEADER]]> ∅) "bob" 60, Py.Ok (), [])).
Proof.
  apply (login_fresh_user ∅ (App ∅ "default" 60) "bob" "2024-05-02");
    [discriminate | reflexivity | by right | apply not_elem_of_empty
    | reflexivity].
Defined.

(** Logging in with an id that has a directory part, on a disk without
    that directory: the id is made current and [USER_DATA_DIR] is made,
    then the opening of the file raises; no file is created and nothing
    is read. *)
Example login_directory_part :
  login_on ∅ (App ∅ "default" 60) "a/b" true "2024-05-02" =
  ({[USER_DATA_DIR]}, (App ∅ "a/b" 60, Py.Raise Py.FileNotFoundError, [])).
Proof. by vm_compute. Qed.

(** X21: a confirmed clearing never raises, whatever the file held and also
    when there was none: it leaves the header-only file, after which the
    chart shows no time completed and all statistics are zero, and ends
    with its notice.  A clearing that is not confirmed does nothing. *)
Theorem clear_history_confirmed self today :
  let cleared :=
    with_fs self (<[user_file (user_id self) := [HEADER]]> (fs self)) in
  AccumulativeHourApp.clear_history self true today =
    (cleared, Py.Ok (),
     [information "History Cleared" "All history has been cleared."]) ∧
  update_pie_chart cleared today = Py.Ok (0, Z.max (daily_goal self - 0) 0) ∧
  update_stats cleared = (Py.Ok (Stats 0 0 0 0 0), []) ∧
  AccumulativeHourApp.clear_history self false today = (self, Py.Ok (), []).
Proof.
  intros cleared.
  destruct (empty_store_views cleared today) as (_ & Hpie & Hrefresh & Hstats).
  { apply lookup_insert_eq. }
  split_and!; [|done..].
  unfold AccumulativeHourApp.clear_history, CSVHandler.clear_history.
  fold cleared. by rewrite Hrefresh, Hstats.
Qed.

(** ** Backup and export *)

(** X22: backing up or exporting a well-formed store, to a file that does not
    exist or that may be overwritten, writes the rows of the user's file
    there, each as [writerow] writes it, which is an exact copy where the
    rows have no CR ([writerow_rows_as_read]), raises nothing and ends
    with the notice of success. *)
Theorem backup_copies_store self file_name confirm f :
  fs self !! user_file (user_id self) = Some f →
  well_formed f →
  file_name ≠ "" →
  fs self !! file_name = None ∨ confirm = true →
  backup_data self file_name confirm =
    (with_fs self (<[file_name := writerow <$> f]> (fs self)), Py.Ok (),
     [information "Backup Successful" "Data backed up successfully!"]) ∧
  export_history self file_name confirm =
    (with_fs self (<[file_name := writerow <$> f]> (fs self)), Py.Ok (),
     [information "Export Successful" "History exported successfully!"]).
Proof.
  intros Hf (rows & -> & Hrows) Hname Hfree.
  unfold backup_data, export_history, save_copy.
  rewrite bool_decide_true by done.
  assert (bool_decide (is_Some (fs self !! file_name)) && negb confirm = false)
    as ->.
  { destruct Hfree as [-> | ->]; [|by rewrite andb_false_r].
    rewrite bool_decide_false; [done|]. by intros [? ?]. }
  unfold read_all_activities. rewrite Hf. cbn [DictReader].
  by rewrite (written_read rows Hrows).
Qed.

Lemma backup_copies_store_witness :
  let f :=
    [HEADER; ["2024-05-01"; "Work"; "Report"; "10"];
     ["2024-05-02"; "Work"; "Email"; "30"]] in
  let self := App {[ user_file "bob" := f ]} "bob" 60 in
  backup_data self "/home/bob/backup.csv" false =
    (with_fs self (<["/home/bob/backup.csv" := f]> (fs self)), Py.Ok (),
     [information "Backup Successful" "Data backed up successfully!"]) ∧
  export_history self "/home/bob/backup.csv" false =
    (with_fs self (<["/home/bob/backup.csv" := f]> (fs self)), Py.Ok (),
     [information "Export Successful" "History exported successfully!"]).
Proof.
  intros f self.
  apply (backup_copies_store self "/home/bob/backup.csv" false f).
  - reflexivity.
  - eexists. split; [reflexivity|].
    apply Forall_cons_2; [done|]. apply Forall_cons_2; [done|]. constructor.
  - discriminate.
  - left. reflexivity.
Defined.

(** X23: a backup changes no file but the one it is told to write; where that
    file exists and overwriting is declined, or where the file dialog is
    cancelled, it changes nothing and shows nothing. *)
Theorem backup_touches_target self file_name confirm path :
  path ≠ file_name →
  fs (backup_data self file_name confirm).1.1 !! path = fs self !! path ∧
  fs (export_history self file_name confirm).1.1 !! path = fs self !! path ∧
  (is_Some (fs self !! file_name) →
   backup_data self file_name false = (self, Py.Ok (), []) ∧
   export_history self file_name false = (self, Py.Ok (), [])) ∧
  backup_data self "" confirm = (self, Py.Ok (), []) ∧
  export_history self "" confirm = (self, Py.Ok (), []).
Proof.
  intros Hne.
  assert (∀ notice,
            fs (save_copy notice self file_name confirm).1.1 !! path =
            fs self !! path) as Hframe.
  { intros notice. unfold save_copy. case_bool_decide; [|done].
    destruct (_ && _); [done|].
    destruct (read_all_activities _ _) as [activities dialogs].
    destruct (written activities) as [rows [[]|e]]; simpl;
      by rewrite lookup_insert_ne. }
  split_and!; [apply Hframe | apply Hframe | | done | done].
  intros Hexists. unfold backup_data, export_history, save_copy.
  case_bool_decide; [|done]. by rewrite bool_decide_true.
Qed.

Lemma backup_touches_target_witness :
  let self := App {[ user_file "bob" := [HEADER] ]} "bob" 60 in
  fs (backup_data self "/tmp/b.csv" true).1.1 !! user_file "bob" =
    Some [HEADER] ∧
  backup_data self (user_file "bob") false = (self, Py.Ok (), []).
Proof.
  intros self.
  destruct (backup_touches_target self "/tmp/b.csv" true (user_file "bob"))
    as (H1 & _); [discriminate|].
  destruct (backup_touches_target self (user_file "bob") false "/tmp/b.csv")
    as (_ & _ & H2 & _); [discriminate|].
  split; [exact H1|]. apply H2. by eexists.
Defined.

(** X24: backing up while the user's file is missing still succeeds: after
    the warning of the reading, a header-only file is written and the
    notice of success is shown. *)
Theorem backup_missing_store self file_name confirm :
  fs self !! user_file (user_id self) = None →
  file_name ≠ "" →
  fs self !! file_name = None ∨ confirm = true →
  backup_data self file_name confirm =
    (with_fs self (<[file_name := [HEADER]]> (fs self)), Py.Ok (),
     [shown (warning "File Not Found"
               "No data file found. A new one will be created.");
      information "Backup Successful" "Data backed up successfully!"]).
Proof.
  intros Hmissing Hname Hfree. unfold backup_data, save_copy.
  rewrite bool_decide_true by done.
  assert (bool_decide (is_Some (fs self !! file_name)) && negb confirm = false)
    as ->.
  { destruct Hfree as [-> | ->]; [|by rewrite andb_false_r].
    rewrite bool_decide_false; [done|]. by intros [? ?]. }
  unfold read_all_activities. by rewrite Hmissing.
Qed.

Lemma backup_missing_store_witness :
  backup_data (App ∅ "bob" 60) "/tmp/b.csv" false =
    (App {[ "/tmp/b.csv" := [HEADER] ]} "bob" 60, Py.Ok (),
     [shown (warning "File Not Found"
               "No data file found. A new one will be created.");
      information "Backup Successful" "Data backed up successfully!"]).
Proof.
  apply (backup_missing_store (App ∅ "bob" 60) "/tmp/b.csv" false);
    [reflexivity | discriminate | by left].
Defined.

(** ** The notice of the goal *)

(** X25: after the chart is updated the setting [goal_reached_today] tells
    whether the total has reached the goal; so of two updates in a row
    the second shows the notice exactly when the total was under the
    goal at the first and has reached it at the second. *)
Theorem goal_notice_on_crossing goal t1 t2 reached :
  let first := goal_notice goal t1 reached in
  let second := goal_notice goal t2 first.2 in
  first.1 = bool_decide (goal ≤ t1) && negb reached ∧
  first.2 = bool_decide (goal ≤ t1) ∧
  second.1 = bool_decide (t1 < goal ≤ t2) ∧
  second.2 = bool_decide (goal ≤ t2).
Proof.
  intros first second. subst first second. unfold goal_notice.
  repeat case_bool_decide; destruct reached; simpl;
    repeat case_bool_decide; simpl; try done; lia.
Qed.

(** ** Starting the application *)

(** X26: the first start for a user without a file shows the warning of the
    missing file once, because the statistics are read before the file is
    initialised, and then creates the header-only file; nothing is
    raised.  Started again on what this leaves, it shows no such
    warning. *)
Theorem init_ui_first_run self today :
  fs self !! user_file (user_id self) = None →
  let created :=
    with_fs self (<[user_file (user_id self) := [HEADER]]> (fs self)) in
  init_ui self today =
    (created, Py.Ok (),
     [warning "File Not Found"
        "No data file found. A new one will be created."]) ∧
  init_ui created today = (created, Py.Ok (), []).
Proof.
  intros Hmissing created.
  assert (fs created !! user_file (user_id created) = Some [HEADER]) as Hf
    by apply lookup_insert_eq.
  destruct (empty_store_views created today) as (_ & _ & Hrefresh & Hstats);
    [done|].
  assert (load_user_data created today = (created, Py.Ok (), [])) as Hload'.
  { unfold load_user_data.
    rewrite (initialize_csv_existing (fs created) (user_id created))
      by by rewrite Hf.
    change (with_fs created (fs created)) with created.
    by rewrite Hrefresh, Hstats. }
  assert (load_user_data self today = (created, Py.Ok (), [])) as Hload.
  { unfold load_user_data, initialize_csv. rewrite Hmissing. fold created.
    by rewrite Hrefresh, Hstats. }
  split.
  - unfold init_ui, refresh, load_activities, update_pie_chart, update_stats,
      read_activities_for_today, read_all_activities.
    rewrite Hmissing. simpl. by rewrite Hload.
  - unfold init_ui. by rewrite Hrefresh, Hstats, Hload'.
Qed.

Lemma init_ui_first_run_witness :
  init_ui (App ∅ "default" 60) "2024-05-02" =
    (App {[ user_file "default" := [HEADER] ]} "default" 60, Py.Ok (),
     [warning "File Not Found"
        "No data file found. A new one will be created."]) ∧
  init_ui (App {[ user_file "default" := [HEADER] ]} "default" 60)
    "2024-05-02" =
    (App {[ user_file "default" := [HEADER] ]} "default" 60, Py.Ok (), []).
Proof.
  apply (init_ui_first_run (App ∅ "default" 60) "2024-05-02"). reflexivity.
Defined.

Lemma handlers_touch_own_file_witness :
  let self :=
    App {[ user_file "bob" := [HEADER; ["2024-05-02"; "Work"; "Email"; "30"]];
           user_file "eve" := [HEADER; ["2024-05-01"; "Work"; "Report"; "10"]] ]}
      "bob" 60 in
  fs (add_activity self "Work" "Call" 40 "2024-05-02").1 !! user_file "eve" =
    Some [HEADER; ["2024-05-01"; "Work"; "Report"; "10"]] ∧
  fs (edit_activity self 0 "Mail" true 35 true "2024-05-02").1
    !! user_file "eve" =
    Some [HEADER; ["2024-05-01"; "Work"; "Report"; "10"]] ∧
  fs (delete_activity self 0 true "2024-05-02").1 !! user_file "eve" =
    Some [HEADER; ["2024-05-01"; "Work"; "Report"; "10"]].
Proof.
  intros self.
  destruct (handlers_touch_own_file self (user_file "eve") "Work" "Call" 40
              0 "Mail" true 35 true true "2024-05-02")
    as ((H1 & H2 & H3) & _); [discriminate|].
  rewrite H1, H2, H3. by vm_compute.
Defined.


(** ** Submissions never raise *)

Lemma filter_dated_records today (subs : list submission) :
  filter (dated today) (record_of <$> subs) =
  record_of <$> filter (λ s, universal_newlines (sub_today s) = today) subs.
Proof.
  induction subs as [|s subs IH]; [done|].
  rewrite fmap_cons, !filter_cons, IH.
  destruct (decide (universal_newlines (sub_today s) = today)) as [<-|Hne].
  - by rewrite decide_True by apply dated_record_of.
  - rewrite decide_False; [done|]. unfold dated. intros Hd.
    apply Hne.
    change (Some (Some (universal_newlines (sub_today s))) =
            Some (Some today)) in Hd.
    by simplify_eq.
Qed.

Lemma refresh_after_submissions (fs0 : filesystem) user_id goal subs today :
  fs0 !! user_file user_id = None →
  refresh (submit_all (App (initialize_csv fs0 user_id) user_id goal) subs)
    today = Py.Ok ().
Proof.
  intros Hfresh.
  set (self := App (initialize_csv fs0 user_id) user_id goal).
  assert (fs self !! user_file (AccumulativeHourApp.user_id self) =
          Some [HEADER]) as Hf.
  { simpl. unfold initialize_csv. rewrite Hfresh. apply lookup_insert_eq. }
  set (after := submit_all self subs).
  assert (AccumulativeHourApp.user_id after = AccumulativeHourApp.user_id self)
    as Hu by apply submit_all_user_id.
  pose proof (submit_all_file self subs _ Hf) as Hfile.
  fold after in Hfile. rewrite <-Hu in Hfile.
  change ([HEADER] ++ ?l)%list with (HEADER :: l) in Hfile.
  assert (Forall (λ r : row, length r = 4%nat)
            (row_of_submission <$> filter named subs)) as Hcells.
  { apply Forall_fmap, Forall_forall. by intros s _. }
  unfold refresh.
  rewrite (load_activities_rows after today _ Hfile Hcells). simpl.
  unfold update_pie_chart.
  rewrite (read_today_filter (fs after) (AccumulativeHourApp.user_id after)
             today).
  2:{ intros ?? Hf'. rewrite Hfile in Hf'. simplify_eq.
      apply list_elem_of_here. }
  pose proof (read_all_submit_all self subs [] Hf) as Hall.
  fold after in Hall. rewrite <-Hu in Hall. rewrite Hall.
  assert ((read_all_activities (fs self) (AccumulativeHourApp.user_id after)).1
          = []) as ->.
  { rewrite Hu. unfold read_all_activities. by rewrite Hf. }
  rewrite app_nil_l. simpl.
  by rewrite filter_dated_records, total_time_records.
Qed.

(** X10: on a store that was freshly initialised and then filled by
    submissions only, a further submission never raises, whatever is
    submitted and on whatever day. *)
Theorem submissions_never_raise
    (fs0 : filesystem) user_id goal subs category text duration today :
  fs0 !! user_file user_id = None →
  (add_activity
     (submit_all (App (initialize_csv fs0 user_id) user_id goal) subs)
     category text duration today).2 = Py.Ok ().
Proof.
  intros Hfresh.
  set (self := App (initialize_csv fs0 user_id) user_id goal).
  set (s := Submission category text duration today).
  pose proof (refresh_after_submissions fs0 user_id goal (subs ++ [s]) today
                Hfresh) as Hrefresh.
  fold self in Hrefresh. unfold submit_all in Hrefresh.
  rewrite foldl_app in Hrefresh. simpl in Hrefresh.
  fold (submit_all self subs) in Hrefresh.
  unfold add_activity in *. by case_decide.
Qed.

Lemma submissions_never_raise_witness :
  (add_activity
     (submit_all (App (initialize_csv ∅ "bob") "bob" 60)
        [Submission "Work" " Email " 30 "2024-05-01";
         Submission "Work" "   " 5 "2024-05-02"])
     "Work" "Call" 40 "2024-05-02").2 = Py.Ok ().
Proof.
  apply (submissions_never_raise ∅ "bob" 60
           [Submission "Work" " Email " 30 "2024-05-01";
            Submission "Work" "   " 5 "2024-05-02"]
           "Work" "Call" 40 "2024-05-02").
  reflexivity.
Defined.
